(** * body.Modifier: replacement of the message body on HTTP responses

    A shallow embedding of [body/body_modifier.go] (package [body] of
    martian) together with the parts of the Go standard library the file
    calls: [encoding/base64] ([StdEncoding.DecodeString]), [encoding/json]
    ([Unmarshal] into [modifierJSON]), [net/http] ([Header.Set],
    [Header.Del]) and [ioutil.NopCloser (bytes.NewReader b)].

    Go values are represented as follows.
    - [string]  : [String.string] (a sequence of 8-bit characters);
    - [[]byte]  : [list byte];
    - [int], [int64], [uint] : [Z] (no operation below leaves the range);
    - [(T, error)] results : a value paired with [option error], [None]
      being the [nil] error;
    - a nil-able map or interface slot : [option];
    - objects reached through an interface value (body streams) : cells of
      a store indexed by locations.

    The standard library is embedded with the behaviour of the current Go
    releases: [base64] skips CR and LF and does not check the trailing
    bits of the last quantum; [json] matches keys to fields by exact name
    first and by folded name otherwise, leaves a field alone on [null],
    keeps decoding after a type error and reports the first one, replaces
    invalid UTF-8 in strings by U+FFFD and refuses more than 10000 levels
    of nesting.  The registration [parse.Register("body.Modifier", ...)]
    done by [init] has no effect on the functions embedded here. *)

From Stdlib Require Import ZArith List Strings.String Strings.Ascii Strings.Byte Lia.
From stdpp Require Import gmap strings list.
Import ListNotations.
Open Scope Z_scope.
Set Warnings "-register-all,-abstract-large-number".

(** ** Errors *)

(** The values of Go's [error] interface that can flow through
    [modifierFromJSON].  The byte offsets carried by the Go error values
    are not represented. *)
Inductive error : Type :=
| SyntaxError                          (* *json.SyntaxError *)
| UnmarshalTypeError (Value : string)  (* *json.UnmarshalTypeError, with its Value field *)
| CorruptInputError                    (* base64.CorruptInputError *)
| OtherError (msg : string).           (* an error built by another package *)

(** ** encoding/base64 *)

Module base64.

(** [encodeStd], the alphabet of [StdEncoding]. *)
Definition encodeStd : list byte :=
  list_byte_of_string
    "ABCDEFGHIJKLMNOPQRSTUVWXYZabcdefghijklmnopqrstuvwxyz0123456789+/".

(** [StdPadding] *)
Definition padChar : byte := "="%byte.

Fixpoint index_from (c : byte) (l : list byte) (i : Z) : Z :=
  match l with
  | [] => 255
  | x :: l' => if Byte.eqb x c then i else index_from c l' (i + 1)
  end.

(** [enc.decodeMap]: every entry is [0xFF] except
    [decodeMap[encodeStd[i]] = i]. *)
Definition decodeMap (c : byte) : Z := index_from c encodeStd 0.

(** Go's conversion [byte(x)] of an unsigned integer: the low 8 bits. *)
Definition byte_of_Z (z : Z) : byte :=
  match Byte.of_N (Z.to_N (z mod 256)) with
  | Some b => b
  | None => "000"%byte
  end.

Definition isNewline (c : byte) : bool :=
  Byte.eqb c "010"%byte || Byte.eqb c "013"%byte.

(** [for si < len(src) && (src[si] == '\n' || src[si] == '\r') { si++ }] *)
Fixpoint skipNewlines (src : list byte) : list byte :=
  match src with
  | c :: src' => if isNewline c then skipNewlines src' else src
  | [] => []
  end.

(** [val := uint(dbuf[0])<<18 | uint(dbuf[1])<<12 | uint(dbuf[2])<<6 | uint(dbuf[3])]
    over the zero-initialised [dbuf [4]byte] of which the first
    [length dbuf] entries have been filled in. *)
Definition quantum_val (dbuf : list Z) : Z :=
  Z.lor (Z.lor (Z.lor (Z.shiftl (nth 0%nat dbuf 0) 18)
                      (Z.shiftl (nth 1%nat dbuf 0) 12))
               (Z.shiftl (nth 2%nat dbuf 0) 6))
        (nth 3%nat dbuf 0).

(** The [switch dlen] at the end of [decodeQuantum]: [dlen - 1] bytes are
    written, [dst[0] = byte(val>>16)], [dst[1] = byte(val>>8)],
    [dst[2] = byte(val)]. *)
Definition quantum_bytes (dbuf : list Z) : list byte :=
  let val := quantum_val dbuf in
  firstn (length dbuf - 1)
         [byte_of_Z (Z.shiftr val 16); byte_of_Z (Z.shiftr val 8); byte_of_Z val].

(** After the padding of the last quantum: newlines are skipped, anything
    else is trailing garbage.  The bytes of the quantum are written in both
    cases. *)
Definition padding_end (rest : list byte) (dbuf : list Z) (dst : list byte)
  : list byte * option error :=
  match skipNewlines rest with
  | [] => (dst ++ quantum_bytes dbuf, None)
  | _ :: _ => (dst ++ quantum_bytes dbuf, Some CorruptInputError)
  end.

(** [Encoding.Decode] for [StdEncoding] (padded, not strict): the loop
    [for si < len(src) { si, ninc, err = enc.decodeQuantum(dst[n:], src, si) ... }].
    [dbuf] holds the [j] sextets read so far in the current quantum and
    [dst] the bytes written so far ([dst[:n]]).  The 8- and 4-character
    fast paths of the Go function compute what [decodeQuantum] computes on
    the same characters and are not represented. *)
Fixpoint decode (src : list byte) (dbuf : list Z) (dst : list byte)
  : list byte * option error :=
  match src with
  | [] =>
      match dbuf with
      | [] => (dst, None)                       (* j == 0 *)
      | _ :: _ => (dst, Some CorruptInputError) (* input ends inside a quantum *)
      end
  | c :: src' =>
      let out := decodeMap c in
      if negb (out =? 255) then
        let dbuf' := dbuf ++ [out] in
        if (length dbuf' =? 4)%nat
        then decode src' [] (dst ++ quantum_bytes dbuf')
        else decode src' dbuf' dst
      else if isNewline c then decode src' dbuf dst
      else if negb (Byte.eqb c padChar) then (dst, Some CorruptInputError)
      else
        (* We've reached the end and there's padding *)
        match length dbuf with
        | 0%nat | 1%nat => (dst, Some CorruptInputError)  (* incorrect padding *)
        | 2%nat =>
            (* "==" is expected, the first "=" is already consumed. *)
            match skipNewlines src' with
            | [] => (dst, Some CorruptInputError)          (* not enough padding *)
            | c2 :: src2 =>
                if Byte.eqb c2 padChar
                then padding_end src2 dbuf dst
                else (dst, Some CorruptInputError)         (* incorrect padding *)
            end
        | _ => padding_end src' dbuf dst
        end
  end.

(** [StdEncoding.DecodeString]: returns [dbuf[:n], err]. *)
Definition DecodeString (s : string) : list byte * option error :=
  decode (list_byte_of_string s) [] [].

(** *** The base64 encoding of RFC 4648, section 4, stated independently *)

Definition in_alphabet (c : byte) : bool := negb (decodeMap c =? 255).
Definition is_pad (c : byte) : bool := Byte.eqb c padChar.

(** Text in the standard alphabet with padding: groups of four characters
    of the alphabet, the last group possibly ending in [=] or [==]. *)
Fixpoint valid_groups (l : list byte) : bool :=
  match l with
  | [] => true
  | a :: b :: c :: d :: rest =>
      match rest with
      | [] =>
          in_alphabet a && in_alphabet b &&
          ((in_alphabet c && (in_alphabet d || is_pad d)) || (is_pad c && is_pad d))
      | _ :: _ =>
          in_alphabet a && in_alphabet b && in_alphabet c && in_alphabet d &&
          valid_groups rest
      end
  | _ => false
  end.

Definition valid_std (s : string) : bool := valid_groups (list_byte_of_string s).

(** The six bits of the value of a character, most significant first. *)
Definition sextet (c : byte) : list bool :=
  let d := decodeMap c in
  [Z.testbit d 5; Z.testbit d 4; Z.testbit d 3; Z.testbit d 2; Z.testbit d 1; Z.testbit d 0].

Definition bits_to_Z (bits : list bool) : Z :=
  fold_left (fun acc (b : bool) => 2 * acc + Z.b2z b) bits 0.

(** The bit string cut into octets; an incomplete last octet is dropped. *)
Fixpoint octets (bits : list bool) : list byte :=
  match bits with
  | b7 :: b6 :: b5 :: b4 :: b3 :: b2 :: b1 :: b0 :: rest =>
      byte_of_Z (bits_to_Z [b7; b6; b5; b4; b3; b2; b1; b0]) :: octets rest
  | _ => []
  end.

(** [base64_decode s]: the sextets of the characters of [s] other than the
    padding, concatenated and read as octets. *)
Definition base64_decode (s : string) : list byte :=
  octets (flat_map sextet (List.filter (fun c => negb (is_pad c)) (list_byte_of_string s))).

(** [removeNewlines s]: [s] without its CR and LF characters. *)
Definition removeNewlines (l : list byte) : list byte :=
  List.filter (fun c => negb (isNewline c)) l.

(** The encoder of RFC 4648 ([StdEncoding.EncodeToString]): three octets
    give four characters; a last group of one or two octets is padded. *)
Definition enc_char (d : Z) : byte := nth (Z.to_nat d) encodeStd "000"%byte.

Fixpoint encode (bs : list byte) : list byte :=
  match bs with
  | [] => []
  | [x] =>
      let v := Z.of_N (Byte.to_N x) in
      [enc_char (v / 4); enc_char ((v mod 4) * 16); padChar; padChar]
  | [x; y] =>
      let v := Z.of_N (Byte.to_N x) * 256 + Z.of_N (Byte.to_N y) in
      [enc_char (v / 1024); enc_char ((v / 16) mod 64); enc_char ((v mod 16) * 4); padChar]
  | x :: y :: z :: rest =>
      let v := (Z.of_N (Byte.to_N x) * 256 + Z.of_N (Byte.to_N y)) * 256 + Z.of_N (Byte.to_N z) in
      enc_char (v / 262144) :: enc_char ((v / 4096) mod 64) ::
      enc_char ((v / 64) mod 64) :: enc_char (v mod 64) :: encode rest
  end.

Definition EncodeToString (bs : list byte) : string := string_of_list_byte (encode bs).

End base64.

(** ** unicode/utf8 and unicode/utf16 *)

Module utf8.

Definition b2z (c : byte) : Z := Z.of_N (Byte.to_N c).
Definition z2b : Z -> byte := base64.byte_of_Z.

Definition in_range (lo hi : Z) (c : byte) : bool := (lo <=? b2z c) && (b2z c <=? hi).
Definition cont : byte -> bool := in_range 128 191.

(** The size of the valid encoding at the head of [s], as [DecodeRune]
    finds it; [0] stands for its answer [(RuneError, 1)] on an invalid or
    truncated encoding. *)
Definition valid_len (s : list byte) : nat :=
  match s with
  | [] => 0%nat
  | x :: r =>
      if b2z x <? 128 then 1%nat
      else if in_range 194 223 x then
        match r with c1 :: _ => if cont c1 then 2%nat else 0%nat | _ => 0%nat end
      else if in_range 224 239 x then
        match r with
        | c1 :: c2 :: _ =>
            let lo := if b2z x =? 224 then 160 else 128 in
            let hi := if b2z x =? 237 then 159 else 191 in
            if in_range lo hi c1 && cont c2 then 3%nat else 0%nat
        | _ => 0%nat
        end
      else if in_range 240 244 x then
        match r with
        | c1 :: c2 :: c3 :: _ =>
            let lo := if b2z x =? 240 then 144 else 128 in
            let hi := if b2z x =? 244 then 143 else 191 in
            if in_range lo hi c1 && cont c2 && cont c3 then 4%nat else 0%nat
        | _ => 0%nat
        end
      else 0%nat
  end.

(** The encoding of [unicode.ReplacementChar], U+FFFD. *)
Definition replacement : list byte := [z2b 239; z2b 191; z2b 189].

(** [utf8.EncodeRune] *)
Definition EncodeRune (r : Z) : list byte :=
  if r <? 128 then [z2b r]
  else if r <? 2048 then [z2b (Z.lor 192 (Z.shiftr r 6)); z2b (Z.lor 128 (Z.land r 63))]
  else if ((55296 <=? r) && (r <=? 57343)) || (1114111 <? r) then replacement
  else if r <? 65536 then
    [z2b (Z.lor 224 (Z.shiftr r 12));
     z2b (Z.lor 128 (Z.land (Z.shiftr r 6) 63));
     z2b (Z.lor 128 (Z.land r 63))]
  else
    [z2b (Z.lor 240 (Z.shiftr r 18));
     z2b (Z.lor 128 (Z.land (Z.shiftr r 12) 63));
     z2b (Z.lor 128 (Z.land (Z.shiftr r 6) 63));
     z2b (Z.lor 128 (Z.land r 63))].

(** [utf16.IsSurrogate] *)
Definition IsSurrogate (r : Z) : bool := (55296 <=? r) && (r <? 57344).

(** [utf16.DecodeRune]: the code point of a surrogate pair, U+FFFD when
    the pair is not valid. *)
Definition DecodeRune16 (r1 r2 : Z) : Z :=
  if (55296 <=? r1) && (r1 <? 56320) && (56320 <=? r2) && (r2 <? 57344)
  then Z.lor (Z.shiftl (r1 - 55296) 10) (r2 - 56320) + 65536
  else 65533.

End utf8.

(** ** encoding/json *)

Module json.

Import utf8.

(** A JSON text, after scanning.  A number keeps its literal; the members
    of an object keep their order and their duplicates. *)
Inductive value : Type :=
| JNull
| JBool (b : bool)
| JNumber (lit : string)
| JString (s : string)
| JArray (elems : list value)
| JObject (members : list (string * value)).

(** [isSpace] of the scanner *)
Definition isSpace (c : byte) : bool :=
  Byte.eqb c " "%byte || Byte.eqb c "009"%byte || Byte.eqb c "013"%byte || Byte.eqb c "010"%byte.

Fixpoint skip_ws (s : list byte) : list byte :=
  match s with
  | c :: r => if isSpace c then skip_ws r else s
  | [] => []
  end.

Definition is_digit (c : byte) : bool := in_range 48 57 c.

Definition hexval (c : byte) : option Z :=
  if in_range 48 57 c then Some (b2z c - 48)
  else if in_range 97 102 c then Some (b2z c - 97 + 10)
  else if in_range 65 70 c then Some (b2z c - 65 + 10)
  else None.

(** [getu4]: the rune of a [\uXXXX] escape at the head of [s]. *)
Definition getu4 (s : list byte) : option Z :=
  match s with
  | "\"%byte :: "u"%byte :: h1 :: h2 :: h3 :: h4 :: _ =>
      match hexval h1, hexval h2, hexval h3, hexval h4 with
      | Some a, Some b, Some c, Some d => Some (((a * 16 + b) * 16 + c) * 16 + d)
      | _, _, _, _ => None
      end
  | _ => None
  end.

(** The body of a string literal, from the character after the opening
    quote: the scanner's acceptance (no control character, only the
    escapes of the grammar) together with what [unquote] produces
    (escapes resolved, surrogate pairs combined, every byte that is not
    part of a valid UTF-8 encoding replaced by U+FFFD).  [k] counts the
    continuation bytes of the encoding being copied; [skip] the
    characters of an escape already consumed. *)
Fixpoint string_body (s : list byte) (k skip : nat) (acc : list byte)
  : option (list byte * list byte) :=
  match s with
  | [] => None
  | c :: r =>
      match skip with
      | S skip' => string_body r k skip' acc
      | O =>
          if Byte.eqb c "034"%byte then Some (acc, r)
          else if Byte.eqb c "\"%byte then
            match r with
            | [] => None
            | e :: _ =>
                if Byte.eqb e "u"%byte then
                  match getu4 s with
                  | None => None
                  | Some rr =>
                      if IsSurrogate rr then
                        match getu4 (skipn 6 s) with
                        | Some rr1 =>
                            let dec := DecodeRune16 rr rr1 in
                            if dec =? 65533
                            then string_body r 0 5 (acc ++ replacement)
                            else string_body r 0 11 (acc ++ EncodeRune dec)
                        | None => string_body r 0 5 (acc ++ replacement)
                        end
                      else string_body r 0 5 (acc ++ EncodeRune rr)
                  end
                else
                  let out :=
                    if Byte.eqb e "034"%byte then Some "034"%byte
                    else if Byte.eqb e "\"%byte then Some "\"%byte
                    else if Byte.eqb e "/"%byte then Some "/"%byte
                    else if Byte.eqb e "b"%byte then Some "008"%byte
                    else if Byte.eqb e "f"%byte then Some "012"%byte
                    else if Byte.eqb e "n"%byte then Some "010"%byte
                    else if Byte.eqb e "r"%byte then Some "013"%byte
                    else if Byte.eqb e "t"%byte then Some "009"%byte
                    else None in
                  match out with
                  | Some o => string_body r 0 1 (acc ++ [o])
                  | None => None
                  end
            end
          else if b2z c <? 32 then None
          else if b2z c <? 128 then string_body r 0 0 (acc ++ [c])
          else
            match k with
            | S k' => string_body r k' 0 (acc ++ [c])
            | O =>
                match valid_len s with
                | O => string_body r 0 0 (acc ++ replacement)
                | S n => string_body r n 0 (acc ++ [c])
                end
            end
      end
  end.

Fixpoint digits (s : list byte) : list byte * list byte :=
  match s with
  | c :: r => if is_digit c then let (d, r') := digits r in (c :: d, r') else ([], s)
  | [] => ([], [])
  end.

(** A number literal: an optional minus sign; an integer part, [0] or a
    non-zero digit followed by digits; an optional fraction, [.] and at
    least one digit; an optional exponent, [e] or [E], an optional sign
    and at least one digit. *)
Definition number (s : list byte) : option (list byte * list byte) :=
  let (sign, s1) :=
    match s with
    | c :: r => if Byte.eqb c "-"%byte then ([c], r) else ([], s)
    | [] => ([], s)
    end in
  let int_part :=
    match s1 with
    | c :: r =>
        if Byte.eqb c "0"%byte then Some ([c], r)
        else if is_digit c then let (d, r') := digits r in Some (c :: d, r')
        else None
    | [] => None
    end in
  match int_part with
  | None => None
  | Some (ip, s2) =>
      let frac :=
        match s2 with
        | c :: r =>
            if Byte.eqb c "."%byte then
              match digits r with
              | ([], _) => None
              | (d, r') => Some (c :: d, r')
              end
            else Some ([], s2)
        | [] => Some ([], s2)
        end in
      match frac with
      | None => None
      | Some (fp, s3) =>
          match s3 with
          | c :: r =>
              if Byte.eqb c "e"%byte || Byte.eqb c "E"%byte then
                let (esign, r1) :=
                  match r with
                  | c1 :: r' =>
                      if Byte.eqb c1 "+"%byte || Byte.eqb c1 "-"%byte then ([c1], r') else ([], r)
                  | [] => ([], r)
                  end in
                match digits r1 with
                | ([], _) => None
                | (d, r') => Some (sign ++ ip ++ fp ++ c :: esign ++ d, r')
                end
              else Some (sign ++ ip ++ fp, s3)
          | [] => Some (sign ++ ip ++ fp, s3)
          end
      end
  end.

Fixpoint literal (lit s : list byte) : option (list byte) :=
  match lit, s with
  | [], _ => Some s
  | l :: lit', c :: s' => if Byte.eqb l c then literal lit' s' else None
  | _ :: _, [] => None
  end.

(** [maxNestingDepth] of the scanner *)
Definition maxNestingDepth : nat := 10000.

Inductive mode := mValue | mElems | mMembers.

(** One JSON value at the head of [s] ([mValue]), or the rest of an array
    after its [[] ([mElems], the elements read so far in [es]) or of an
    object after its [{] ([mMembers], the members read so far in [ms]).
    [depth] is the number of enclosing arrays and objects.  Every call
    consumes a character before the next one of its kind, so the fuel
    handed out by [parse] is never exhausted. *)
Fixpoint parse_at (fuel : nat) (m : mode) (depth : nat) (es : list value)
    (ms : list (string * value)) (s : list byte) : option (value * list byte) :=
  match fuel with
  | O => None
  | S fuel' =>
      match m with
      | mValue =>
          match skip_ws s with
          | [] => None
          | c :: r =>
              if Byte.eqb c "{"%byte then
                if (maxNestingDepth <=? depth)%nat then None
                else
                  match skip_ws r with
                  | c' :: r' =>
                      if Byte.eqb c' "}"%byte then Some (JObject [], r')
                      else parse_at fuel' mMembers (S depth) [] [] r
                  | [] => None
                  end
              else if Byte.eqb c "["%byte then
                if (maxNestingDepth <=? depth)%nat then None
                else
                  match skip_ws r with
                  | c' :: r' =>
                      if Byte.eqb c' "]"%byte then Some (JArray [], r')
                      else parse_at fuel' mElems (S depth) [] [] r
                  | [] => None
                  end
              else if Byte.eqb c "034"%byte then
                match string_body r 0 0 [] with
                | Some (str, r') => Some (JString (string_of_list_byte str), r')
                | None => None
                end
              else if Byte.eqb c "t"%byte then
                option_map (fun r' => (JBool true, r')) (literal (list_byte_of_string "rue") r)
              else if Byte.eqb c "f"%byte then
                option_map (fun r' => (JBool false, r')) (literal (list_byte_of_string "alse") r)
              else if Byte.eqb c "n"%byte then
                option_map (fun r' => (JNull, r')) (literal (list_byte_of_string "ull") r)
              else
                match number (c :: r) with
                | Some (lit, r') => Some (JNumber (string_of_list_byte lit), r')
                | None => None
                end
          end
      | mElems =>
          match parse_at fuel' mValue depth [] [] s with
          | None => None
          | Some (v, r) =>
              match skip_ws r with
              | c :: r' =>
                  if Byte.eqb c ","%byte then parse_at fuel' mElems depth (es ++ [v]) [] r'
                  else if Byte.eqb c "]"%byte then Some (JArray (es ++ [v]), r')
                  else None
              | [] => None
              end
          end
      | mMembers =>
          match skip_ws s with
          | q :: r0 =>
              if Byte.eqb q "034"%byte then
                match string_body r0 0 0 [] with
                | None => None
                | Some (key, r1) =>
                    match skip_ws r1 with
                    | c1 :: r2 =>
                        if Byte.eqb c1 ":"%byte then
                          match parse_at fuel' mValue depth [] [] r2 with
                          | None => None
                          | Some (v, r3) =>
                              let ms' := ms ++ [(string_of_list_byte key, v)] in
                              match skip_ws r3 with
                              | c :: r' =>
                                  if Byte.eqb c ","%byte then parse_at fuel' mMembers depth [] ms' r'
                                  else if Byte.eqb c "}"%byte then Some (JObject ms', r')
                                  else None
                              | [] => None
                              end
                          end
                        else None
                    | [] => None
                    end
                end
              else None
          | [] => None
          end
      end
  end.

(** [checkValid] followed by the scan of the decoder: exactly one value,
    surrounded by white space only. *)
Definition parse (b : list byte) : option value :=
  match parse_at (2 * length b + 2) mValue 0 [] [] b with
  | Some (v, r) => match skip_ws r with [] => Some v | _ :: _ => None end
  | None => None
  end.

(** The fuel a call of [parse_at] needs at most. *)
Definition need (m : mode) (s : list byte) : nat :=
  2 * length s + match m with mValue => 1 | _ => 2 end.

End json.

(** ** net/textproto and net/http: header maps *)

Module http.

Import utf8.

(** [validHeaderFieldByte]: the token characters of RFC 7230. *)
Definition validHeaderFieldByte (c : byte) : bool :=
  in_range 48 57 c || in_range 65 90 c || in_range 97 122 c ||
  existsb (Byte.eqb c) (list_byte_of_string "!#$%&'*+-.^_`|~").

(** The loop of [canonicalMIMEHeaderKey]: upper case for the first letter
    and after each dash, lower case elsewhere. *)
Fixpoint canon (upper : bool) (a : list byte) : list byte :=
  match a with
  | [] => []
  | c :: r =>
      let c' :=
        if upper && in_range 97 122 c then z2b (b2z c - 32)
        else if negb upper && in_range 65 90 c then z2b (b2z c + 32)
        else c in
      c' :: canon (Byte.eqb c' "-"%byte) r
  end.

(** [textproto.CanonicalMIMEHeaderKey]: a key with a byte that is not a
    token character is returned unchanged. *)
Definition CanonicalMIMEHeaderKey (s : string) : string :=
  let a := list_byte_of_string s in
  if forallb validHeaderFieldByte a then string_of_list_byte (canon true a) else s.

(** [http.Header], a [map[string][]string]. *)
Abbreviation Header := (gmap string (list string)).

(** [Header.Set]: [h[CanonicalMIMEHeaderKey(key)] = []string{value}] *)
Definition Set_ (key value : string) (h : Header) : Header :=
  <[CanonicalMIMEHeaderKey key := [value]]> h.

(** [Header.Del]: [delete(h, CanonicalMIMEHeaderKey(key))] *)
Definition Del (key : string) (h : Header) : Header :=
  delete (CanonicalMIMEHeaderKey key) h.

(** [Header.Get]: the first value associated with the key, [""] if none. *)
Definition Get (key : string) (h : Header) : string :=
  match h !! CanonicalMIMEHeaderKey key with
  | Some (v :: _) => v
  | _ => EmptyString
  end.


(** A location of the store of stream objects; an interface value that is
    not nil refers to one. *)
Definition loc : Type := positive.

(** [http.Response]: the fields the modifier touches; [rest] stands for all
    the others (status, protocol, trailer, request, ...). *)
Module Response.
Record t (Rest : Type) : Type := mk {
  Header : option (gmap string (list string));  (* None: the nil map *)
  Body : option loc;                            (* None: the nil interface *)
  ContentLength : Z;
  rest : Rest;
}.
Arguments mk {Rest} _ _ _ _.
Arguments Header {Rest} _.
Arguments Body {Rest} _.
Arguments ContentLength {Rest} _.
Arguments rest {Rest} _.
End Response.

End http.

(** ** martian.Context *)

Module martian.
(** Modelled from the spec: [martian.Context] is declared outside the files
    at hand.  The hook assigns its boolean field [SkipRoundTrip], the
    "skip round trip" flag of the spec; [rest] stands for its other
    fields. *)
Record Context (Rest : Type) : Type := mkContext {
  SkipRoundTrip : bool;
  rest : Rest;
}.
Arguments mkContext {Rest} _ _.
Arguments SkipRoundTrip {Rest} _.
Arguments rest {Rest} _.
End martian.

(** ** io: body streams *)

(** The [io.ReadCloser] objects a response body can be. *)
Inductive ReadCloser : Type :=
| Stream (unread : list byte) (closed : bool)
    (* a body handed over by the round trip or by an earlier modifier; its
       Close releases it *)
| NopCloserReader (s : list byte) (i : Z).
    (* ioutil.NopCloser(bytes.NewReader(s)), read index i *)

(** [rc.Close()] *)
Definition Close (rc : ReadCloser) : ReadCloser :=
  match rc with
  | Stream d _ => Stream d true
  | NopCloserReader s i => NopCloserReader s i
  end.

(** [ioutil.ReadAll(rc)]: the bytes read, the error, the stream afterwards. *)
Definition ReadAll (rc : ReadCloser) : list byte * option error * ReadCloser :=
  match rc with
  | Stream d false => (d, None, Stream [] false)
  | Stream d true => ([], Some (OtherError "read on closed body"), rc)
  | NopCloserReader s i => (skipn (Z.to_nat i) s, None, NopCloserReader s (Z.of_nat (length s)))
  end.

(** ** The modifier *)

(** [type Modifier struct] *)
Record Modifier : Type := mkModifier {
  contentType : string;
  body : list byte;
}.

(** [NewModifier] constructs and returns a [body.Modifier]. *)
Definition NewModifier (b : list byte) (contentType : string) : Modifier * option error :=
  ({| contentType := contentType; body := b |}, None).

(** *** Decoding of [modifierJSON] by [json.Unmarshal] *)

Inductive field := fContentType | fBody | fScope.

(** The names given by the [json:] tags of [modifierJSON]. *)
Definition field_name (f : field) : string :=
  match f with
  | fContentType => "contentType"
  | fBody => "body"
  | fScope => "scope"
  end.

(** [foldName]: the key with its letters folded to upper case.  The two
    runes outside ASCII whose fold orbit meets ASCII, U+017F (long s) and
    U+212A (Kelvin sign), fold to [S] and [K]; no other rune folds into
    ASCII, and those are left as they are. *)
Fixpoint foldBytes (s : list byte) : list byte :=
  match s with
  | [] => []
  | c :: r =>
      if utf8.in_range 97 122 c then utf8.z2b (utf8.b2z c - 32) :: foldBytes r
      else
        match r with
        | c1 :: r1 =>
            if Byte.eqb c "197"%byte && Byte.eqb c1 "191"%byte then "S"%byte :: foldBytes r1
            else
              match r1 with
              | c2 :: r2 =>
                  if Byte.eqb c "226"%byte && Byte.eqb c1 "132"%byte && Byte.eqb c2 "170"%byte
                  then "K"%byte :: foldBytes r2
                  else c :: foldBytes r
              | [] => c :: foldBytes r
              end
        | [] => c :: foldBytes r
        end
  end.

Definition foldName (s : string) : string :=
  string_of_list_byte (foldBytes (list_byte_of_string s)).

Definition fields : list field := [fContentType; fBody; fScope].

(** The field a key of the document selects: the one with that exact
    name, otherwise the one with the same folded name. *)
Definition find_field (key : string) : option field :=
  match find (fun f => String.eqb (field_name f) key) fields with
  | Some f => Some f
  | None => find (fun f => String.eqb (foldName (field_name f)) (foldName key)) fields
  end.

(** The [Value] of the [UnmarshalTypeError] for a JSON value. *)
Definition kind_name (v : json.value) : string :=
  match v with
  | json.JNull => "null"
  | json.JBool _ => "bool"
  | json.JNumber _ => "number"
  | json.JString _ => "string"
  | json.JArray _ => "array"
  | json.JObject _ => "object"
  end.

(** [d.saveError]: the first error is kept. *)
Definition saveError (saved e : option error) : option error :=
  match saved with
  | Some _ => saved
  | None => e
  end.

(** A JSON value stored into a field of kind [string]: a string is
    assigned, [null] leaves the field as it is, anything else is a type
    error and leaves the field as it is. *)
Definition store_string (cur : string) (v : json.value) : string * option error :=
  match v with
  | json.JString s => (s, None)
  | json.JNull => (cur, None)
  | _ => (cur, Some (UnmarshalTypeError (kind_name v)))
  end.

(** Package [parse] (the declarations of [ModifierType], [Result] and
    [NewResult]) is not part of the files at hand.  Package [body] is
    verified for any such package; the module below is the one the spec
    describes, used to run the decoder on sample configurations. *)
Module parse.

(** Modelled from the spec: [parse.ModifierType], the scope tokens, the
    literal strings ["request"] and ["response"]. *)
Definition ModifierType : Type := string.

(** Modelled from the spec: [[]parse.ModifierType], the declared scope, a
    Go slice of tokens; [None] is the nil slice. *)
Definition ModifierTypes : Type := option (list ModifierType).

(** Modelled from the spec: the zero value of the [scope] field. *)
Definition nilScope : ModifierTypes := None.

(** Modelled from the spec: the elements of a JSON array stored as
    tokens, each as a field of kind string is. *)
Fixpoint store_elems (vs : list json.value) : list ModifierType * option error :=
  match vs with
  | [] => ([], None)
  | v :: vs' =>
      let (s, e) := store_string EmptyString v in
      let (l, e') := store_elems vs' in
      (s :: l, saveError e e')
  end.

(** Modelled from the spec: a JSON value stored into the [scope] field: an
    array gives the slice of its tokens, [null] the nil slice, anything
    else is a type error. *)
Definition unmarshalScope (cur : ModifierTypes) (v : json.value)
  : ModifierTypes * option error :=
  match v with
  | json.JArray vs => let (l, e) := store_elems vs in (Some l, e)
  | json.JNull => (None, None)
  | _ => (cur, Some (UnmarshalTypeError (kind_name v)))
  end.

(** Modelled from the spec: [parse.Result], the modifier together with its
    parsed scope. *)
Definition Result : Type := Modifier * ModifierTypes.

(** Modelled from the spec: [parse.NewResult] wraps the modifier and the
    scope. *)
Definition NewResult (m : Modifier) (scope : ModifierTypes) : option Result * option error :=
  (Some (m, scope), None).

End parse.

(** JSON documents are written below with ['] in place of the double
    quote. *)
Definition doc (s : string) : list byte :=
  map (fun c => if Byte.eqb c "'"%byte then "034"%byte else c) (list_byte_of_string s).

(** ** The state of a hook call *)

(** What a hook call can reach: the receiver [m], the objects its
    arguments [ctx], [req] and [res] point to, and the store of the stream
    objects.  [Request] is [http.Request]; [CtxRest] and [ResRest] are the
    fields of [martian.Context] and [http.Response] the modifier does not
    name. *)
Record World (Request CtxRest ResRest : Type) : Type := mkWorld {
  this : Modifier;
  ctx : martian.Context CtxRest;
  req : Request;
  res : http.Response.t ResRest;
  store : gmap http.loc ReadCloser;
}.
Arguments mkWorld {Request CtxRest ResRest} _ _ _ _ _.
Arguments this {Request CtxRest ResRest} _.
Arguments ctx {Request CtxRest ResRest} _.
Arguments req {Request CtxRest ResRest} _.
Arguments res {Request CtxRest ResRest} _.
Arguments store {Request CtxRest ResRest} _.

(** A call either returns or panics; the effects made before a panic stay. *)
Inductive outcome (A : Type) : Type :=
| Returns (a : A)
| Panics (msg : string).
Arguments Returns {A} _.
Arguments Panics {A} _.

(** ** Package body *)

Section Body.

(** [ModifierTypes] is [[]parse.ModifierType], [nilScope] its zero value
    and [unmarshalScope cur v] what [encoding/json] does when it stores the
    JSON value [v] into a field of that type holding [cur]: the field
    afterwards and the error, if any.  [Result] is [parse.Result].  Package
    [parse] is not part of the files at hand, so these are parameters. *)
Context {ModifierTypes : Type} (nilScope : ModifierTypes)
        (unmarshalScope : ModifierTypes -> json.value -> ModifierTypes * option error).
Context {Result : Type}
        (NewResult : Modifier -> ModifierTypes -> option Result * option error).

(** [http.Request], and the fields of [martian.Context] and
    [http.Response] the modifier does not name. *)
Context {Request CtxRest ResRest : Type}.

(** [type modifierJSON struct] *)
Record modifierJSON : Type := mkJSON {
  ContentType : string;
  Body : string;  (* Body is expected to be a Base64 encoded string. *)
  Scope : ModifierTypes;
}.

(** [&modifierJSON{}] *)
Definition zero_modifierJSON : modifierJSON :=
  {| ContentType := EmptyString; Body := EmptyString; Scope := nilScope |}.

(** The members of a JSON object stored into the struct, in the order of
    the document: a key that selects no field is skipped, a later key
    overwrites an earlier one, a type error is saved and the decoding goes
    on. *)
Fixpoint object (ms : list (string * json.value)) (msg : modifierJSON)
    (saved : option error) : modifierJSON * option error :=
  match ms with
  | [] => (msg, saved)
  | (key, v) :: ms' =>
      match find_field key with
      | None => object ms' msg saved
      | Some fContentType =>
          let (s, e) := store_string (ContentType msg) v in
          object ms' {| ContentType := s; Body := Body msg; Scope := Scope msg |}
                 (saveError saved e)
      | Some fBody =>
          let (s, e) := store_string (Body msg) v in
          object ms' {| ContentType := ContentType msg; Body := s; Scope := Scope msg |}
                 (saveError saved e)
      | Some fScope =>
          let (sc, e) := unmarshalScope (Scope msg) v in
          object ms' {| ContentType := ContentType msg; Body := Body msg; Scope := sc |}
                 (saveError saved e)
      end
  end.

(** A JSON value stored into a [*modifierJSON]. *)
Definition store_struct (v : json.value) (msg : modifierJSON) : modifierJSON * option error :=
  match v with
  | json.JObject ms => object ms msg None
  | json.JNull => (msg, None)
  | _ => (msg, Some (UnmarshalTypeError (kind_name v)))
  end.

(** [json.Unmarshal(b, msg)]: the struct afterwards and the error. *)
Definition Unmarshal (b : list byte) (msg : modifierJSON) : modifierJSON * option error :=
  match json.parse b with
  | None => (msg, Some SyntaxError)
  | Some v => store_struct v msg
  end.

(** [modifierFromJSON] takes a JSON message as a byte slice and returns a
    [body.Modifier] and an error. *)
Definition modifierFromJSON (b : list byte) : option Result * option error :=
  let (msg, err) := Unmarshal b zero_modifierJSON in
  match err with
  | Some e => (None, Some e)
  | None =>
      let (body, err) := base64.DecodeString (Body msg) in
      match err with
      | Some e => (None, Some e)
      | None =>
          let (mod_, err) := NewModifier body (ContentType msg) in
          match err with
          | Some e => (None, Some e)
          | None => NewResult mod_ (Scope msg)
          end
      end
  end.

(** *** The hooks *)

Abbreviation World := (World Request CtxRest ResRest).

Definition M (A : Type) : Type := World -> outcome A * World.

#[global] Instance M_ret : MRet M := fun A a w => (Returns a, w).
#[global] Instance M_bind : MBind M := fun A B f m w =>
  match m w with
  | (Returns a, w') => f a w'
  | (Panics msg, w') => (Panics msg, w')
  end.

Definition panic {A} (msg : string) : M A := fun w => (Panics msg, w).
Definition get {A} (f : World -> A) : M A := fun w => (Returns (f w), w).
Definition modify (f : World -> World) : M unit := fun w => (Returns tt, f w).

Definition set_ctx (c : martian.Context CtxRest) (w : World) : World :=
  {| this := this w; ctx := c; req := req w; res := res w; store := store w |}.
Definition set_res (r : http.Response.t ResRest) (w : World) : World :=
  {| this := this w; ctx := ctx w; req := req w; res := r; store := store w |}.
Definition set_store (st : gmap http.loc ReadCloser) (w : World) : World :=
  {| this := this w; ctx := ctx w; req := req w; res := res w; store := st |}.

(** [ctx.SkipRoundTrip = b] *)
Definition assign_SkipRoundTrip (b : bool) : M unit :=
  modify (fun w => set_ctx (martian.mkContext b (martian.rest (ctx w))) w).

(** [res.Body.Close()]: a method call on a nil interface value panics; the
    error returned by [Close] is dropped. *)
Definition Body_Close : M unit :=
  b ← get (fun w => http.Response.Body (res w));
  match b with
  | None => panic "invalid memory address or nil pointer dereference"
  | Some l =>
      st ← get store;
      match st !! l with
      | None => panic "invalid memory address or nil pointer dereference"
      | Some rc => modify (set_store (<[l := Close rc]> st))
      end
  end.

(** [res.Header.Set(key, value)]: an assignment to an entry of a nil map
    panics. *)
Definition Header_Set (key value : string) : M unit :=
  h ← get (fun w => http.Response.Header (res w));
  match h with
  | None => panic "assignment to entry in nil map"
  | Some h =>
      modify (fun w => set_res (http.Response.mk (Some (http.Set_ key value h))
                (http.Response.Body (res w)) (http.Response.ContentLength (res w))
                (http.Response.rest (res w))) w)
  end.

(** [res.Header.Del(key)]: [delete] on a nil map does nothing. *)
Definition Header_Del (key : string) : M unit :=
  modify (fun w => set_res (http.Response.mk (http.Del key <$> http.Response.Header (res w))
            (http.Response.Body (res w)) (http.Response.ContentLength (res w))
            (http.Response.rest (res w))) w).

(** [res.ContentLength = n] *)
Definition assign_ContentLength (n : Z) : M unit :=
  modify (fun w => set_res (http.Response.mk (http.Response.Header (res w))
            (http.Response.Body (res w)) n (http.Response.rest (res w))) w).

(** [ioutil.NopCloser(bytes.NewReader(b))]: a new stream object. *)
Definition NopCloser_NewReader (b : list byte) : M http.loc :=
  st ← get store;
  let l := fresh (dom st) in
  modify (set_store (<[l := NopCloserReader b 0]> st)) ;;
  mret l.

(** [res.Body = rc] *)
Definition assign_Body (l : http.loc) : M unit :=
  modify (fun w => set_res (http.Response.mk (http.Response.Header (res w))
            (Some l) (http.Response.ContentLength (res w))
            (http.Response.rest (res w))) w).

(** [ModifyRequest] signals to the proxy to skip the roundtrip. *)
Definition ModifyRequest : M (option error) :=
  assign_SkipRoundTrip true ;;
  mret None.

(** [ModifyResponse] sets the Content-Type header and overrides the
    response body. *)
Definition ModifyResponse : M (option error) :=
  (* Replace the existing body, close it first. *)
  Body_Close ;;
  m_contentType ← get (fun w => contentType (this w));
  Header_Set "Content-Type" m_contentType ;;
  (* Reset the Content-Encoding since we know that the new body isn't encoded. *)
  Header_Del "Content-Encoding" ;;
  m_body ← get (fun w => body (this w));
  assign_ContentLength (Z.of_nat (length m_body)) ;;
  rc ← NopCloser_NewReader m_body;
  assign_Body rc ;;
  mret None.

(** [ioutil.ReadAll(res.Body)], as a later reader of the response does it. *)
Definition ReadAll_Body : M (list byte * option error) :=
  b ← get (fun w => http.Response.Body (res w));
  match b with
  | None => panic "invalid memory address or nil pointer dereference"
  | Some l =>
      st ← get store;
      match st !! l with
      | None => panic "invalid memory address or nil pointer dereference"
      | Some rc =>
          let '(bs, e, rc') := ReadAll rc in
          modify (set_store (<[l := rc']> st)) ;;
          mret (bs, e)
      end
  end.

(** [n] calls of a hook in a row; a panic ends the run. *)
Fixpoint repeat_call (n : nat) (hook : M (option error)) : M (list (option error)) :=
  match n with
  | O => mret []
  | S n' => e ← hook; es ← repeat_call n' hook; mret (e :: es)
  end.

(** *** The hooks as they are called *)

(** A pointer argument of a hook, the receiver included: nil, or the
    address of the object the world holds for it. *)
Inductive pointer : Type :=
| nil_ptr
| ptr.

(** A field of [*p] is read or assigned: on a nil [p] the call panics. *)
Definition deref (p : pointer) : M unit :=
  match p with
  | nil_ptr => panic "invalid memory address or nil pointer dereference"
  | ptr => mret tt
  end.

(** [func (m *Modifier) ModifyRequest(ctx *martian.Context, req *http.Request) error]:
    [ctx] is dereferenced by the assignment; [m] and [req] are not used. *)
Definition ModifyRequest_call (m ctx req : pointer) : M (option error) :=
  deref ctx ;; assign_SkipRoundTrip true ;;
  mret None.

(** [func (m *Modifier) ModifyResponse(ctx *martian.Context, res *http.Response) error]:
    [res] is dereferenced first, by [res.Body.Close()]; [m] by the operand
    [m.contentType] of the next statement; [ctx] is not used. *)
Definition ModifyResponse_call (m ctx res : pointer) : M (option error) :=
  deref res ;; Body_Close ;;
  deref m ;; m_contentType ← get (fun w => contentType (this w));
  Header_Set "Content-Type" m_contentType ;;
  Header_Del "Content-Encoding" ;;
  m_body ← get (fun w => body (this w));
  assign_ContentLength (Z.of_nat (length m_body)) ;;
  rc ← NopCloser_NewReader m_body;
  assign_Body rc ;;
  mret None.

(** *** Shapes of documents *)

(** A member whose value does not have the type of the field it selects:
    a value other than a string or [null] for [contentType] or [body], a
    value [encoding/json] cannot store for [scope]. *)
Definition mistyped (kv : string * json.value) : Prop :=
  match find_field (fst kv) with
  | Some fContentType | Some fBody =>
      match snd kv with
      | json.JString _ | json.JNull => False
      | _ => True
      end
  | Some fScope => forall cur, is_Some (snd (unmarshalScope cur (snd kv)))
  | None => False
  end.

(** A member that is stored without error or selects no field. *)
Definition well_typed (kv : string * json.value) : Prop :=
  match find_field (fst kv) with
  | Some fContentType | Some fBody =>
      match snd kv with
      | json.JString _ | json.JNull => True
      | _ => False
      end
  | Some fScope => forall cur, snd (unmarshalScope cur (snd kv)) = None
  | None => True
  end.

(** A serialized document that is not a JSON text, or whose value is
    neither an object nor [null], or one of whose members is mistyped. *)
Definition shape_mismatch (b : list byte) : Prop :=
  match json.parse b with
  | None => True
  | Some (json.JObject ms) => Exists mistyped ms
  | Some json.JNull => False
  | Some _ => True
  end.

(** The member selects the field [f]. *)
Definition selects (f : field) (kv : string * json.value) : Prop :=
  find_field (fst kv) = Some f.

(** The errors [json.Unmarshal] itself builds. *)
Definition json_error (e : error) : Prop :=
  e = SyntaxError \/ exists v, e = UnmarshalTypeError v.

(** [res.Header[key]], nothing when the map is nil. *)
Definition header_lookup (r : http.Response.t ResRest) (key : string) : option (list string) :=
  match http.Response.Header r with
  | Some h => h !! key
  | None => None
  end.

(** The world after a successful [ModifyResponse] on a response whose body
    is the stream object [rc] at [l] and whose header map is [h]. *)
Definition overridden (w : World) (l : http.loc) (rc : ReadCloser)
    (h : gmap string (list string)) : World :=
  let st := <[l := Close rc]> (store w) in
  let l' := fresh (dom st) in
  {| this := this w; ctx := ctx w; req := req w;
     res := http.Response.mk
              (Some (http.Del "Content-Encoding" (http.Set_ "Content-Type" (contentType (this w)) h)))
              (Some l') (Z.of_nat (length (body (this w)))) (http.Response.rest (res w));
     store := <[l' := NopCloserReader (body (this w)) 0]> st |}.

End Body.

(** ** Sample configurations and transactions *)

(** The configuration of the end-to-end scenario: the body is the base64
    text of [hello]. *)
Definition hello_config : list byte :=
  doc "{'scope':['response'],'contentType':'text/plain','body':'aGVsbG8='}".

(** The same without the [contentType] member. *)
Definition no_contentType_config : list byte :=
  doc "{'scope':['response'],'body':'aGVsbG8='}".

(** The base64 text of [hello] with a line feed in the middle. *)
Definition newline_body : string := "aGVs" ++ String "010"%char "bG8=".

(** A body with a line feed (written [\n] in the JSON text) in the middle. *)
Definition newline_config : list byte :=
  doc "{'scope':['response'],'contentType':'text/plain','body':'aGVs\nbG8='}".

(** A body that is not base64 text. *)
Definition bad_body_config : list byte :=
  doc "{'scope':['response'],'contentType':'text/plain','body':'not base64!!'}".

(** An object without any member. *)
Definition empty_config : list byte := doc "{}".

(** A [body] member that is a number. *)
Definition mistyped_config : list byte := doc "{'contentType':'text/plain','body':5}".

Definition hello_modifier : Modifier :=
  {| contentType := "text/plain"; body := list_byte_of_string "hello" |}.

(** A gzip-encoded response of 100 bytes whose body is the open stream at
    location 1. *)
Definition gzip_response : http.Response.t unit :=
  http.Response.mk
    (Some {[ "Content-Encoding"%string := ["gzip"%string];
             "Content-Type"%string := ["text/html"%string];
             "X-Served-By"%string := ["origin"%string] ]})
    (Some 1%positive) 100 tt.

Definition gzip_world : World unit unit unit :=
  mkWorld hello_modifier (martian.mkContext false tt) tt gzip_response
          {[ 1%positive := Stream (list_byte_of_string "<html>") false ]}.

(** The same response with a nil body slot. *)
Definition nil_body_world : World unit unit unit :=
  mkWorld hello_modifier (martian.mkContext false tt) tt
          (http.Response.mk (http.Response.Header gzip_response) None 100 tt)
          {[ 1%positive := Stream (list_byte_of_string "<html>") false ]}.

(** A response with a body and a nil header map, [&http.Response{Body: rc}]. *)
Definition nil_header_world : World unit unit unit :=
  mkWorld hello_modifier (martian.mkContext false tt) tt
          (http.Response.mk None (Some 1%positive) 0 tt)
          {[ 1%positive := Stream (list_byte_of_string "<html>") false ]}.

(** [modifierFromJSON] with package [parse] as modelled from the spec. *)
Definition sample_decoder : list byte -> option parse.Result * option error :=
  modifierFromJSON parse.nilScope parse.unmarshalScope parse.NewResult.

(** [json.Unmarshal(b, &modifierJSON{})] with the same. *)
Definition sample_Unmarshal (b : list byte) : @modifierJSON parse.ModifierTypes * option error :=
  Unmarshal parse.unmarshalScope b (zero_modifierJSON parse.nilScope).

(** ** Vocabulary of the further properties *)

(** A member that leaves the struct as it is: its key selects no field, or
    it gives [null] to [contentType] or [body]. *)
Definition inert (kv : string * json.value) : Prop :=
  match find_field (fst kv) with
  | None => True
  | Some fContentType | Some fBody => snd kv = json.JNull
  | Some fScope => False
  end.

(** The fields the members of an object select, in order. *)
Definition selected (ms : list (string * json.value)) : list field :=
  omap (fun kv => find_field (fst kv)) ms.

(** The same members under keys with the same folded names. *)
Definition same_members (ms ms' : list (string * json.value)) : Prop :=
  Forall2 (fun kv kv' => foldName (fst kv) = foldName (fst kv') /\ snd kv = snd kv') ms ms'.

(** The value of a string field of the struct. *)
Definition string_field {ModifierTypes : Type} (f : field)
    (msg : @modifierJSON ModifierTypes) : string :=
  match f with
  | fContentType => ContentType msg
  | fBody => Body msg
  | fScope => EmptyString
  end.

(** A character that stands for itself in a JSON string: ASCII, not a
    control character, neither the quote nor the backslash. *)
Definition plain_char (c : byte) : bool :=
  (32 <=? utf8.b2z c) && (utf8.b2z c <? 128) &&
  negb (Byte.eqb c "034"%byte) && negb (Byte.eqb c "\"%byte).

(** The JSON string literal of a text of plain characters. *)
Definition json_string (s : list byte) : list byte := "034"%byte :: s ++ ["034"%byte].

(** The configuration document with the content type [ct] and, as its
    body, the base64 encoding of [payload]. *)
Definition config_doc (ct : string) (payload : list byte) : list byte :=
  "{"%byte :: json_string (list_byte_of_string "contentType") ++
  ":"%byte :: json_string (list_byte_of_string ct) ++
  ","%byte :: json_string (list_byte_of_string "body") ++
  ":"%byte :: json_string (base64.encode payload) ++ ["}"%byte].

(** A response as [ModifyResponse] of the modifier [m] leaves it. *)
Definition served {Request CtxRest ResRest : Type} (m : Modifier)
    (w : World Request CtxRest ResRest) : Prop :=
  this w = m /\
  http.Response.ContentLength (res w) = Z.of_nat (length (body m)) /\
  (exists h, http.Response.Header (res w)
             = Some (http.Del "Content-Encoding" (http.Set_ "Content-Type" (contentType m) h))) /\
  (exists l, http.Response.Body (res w) = Some l /\
             store w !! l = Some (NopCloserReader (body m) 0)).

(** The sample transaction with another modifier as its receiver. *)
Definition gzip_world_of (m : Modifier) : World unit unit unit :=
  mkWorld m (ctx gzip_world) (req gzip_world) (res gzip_world) (store gzip_world).

(** * Properties *)

(** ** encoding/base64 *)

Abbreviation nonpad := (fun c => negb (base64.is_pad c)).
Abbreviation nl_free := (Forall (fun c => base64.isNewline c = false)).

Lemma lor_shiftl_small (x y k : Z) :
  0 <= k -> 0 <= y < 2 ^ k -> Z.lor (Z.shiftl x k) y = x * 2 ^ k + y.
Proof.
  intros Hk Hy. rewrite <- Z.shiftl_mul_pow2 by assumption.
  symmetry. apply Z.add_nocarry_lor.
  apply Z.bits_inj_0. intros n. rewrite Z.land_spec.
  destruct (Z.lt_ge_cases n k) as [Hlt | Hge].
  - rewrite Z.shiftl_spec_low by assumption. reflexivity.
  - assert (Hb : Z.testbit y n = false).
    { apply (proj1 (Z.bounded_iff_bits_nonneg' k y Hk (proj1 Hy))); assumption. }
    rewrite Hb. apply andb_false_r.
Qed.

Lemma decodeMap_range (c : byte) :
  base64.in_alphabet c = true -> 0 <= base64.decodeMap c < 64.
Proof.
  destruct c; vm_compute; intros H;
    first [discriminate H | split; [discriminate | reflexivity]].
Qed.

Lemma quantum_val_arith (a b c d : Z) :
  0 <= a < 64 -> 0 <= b < 64 -> 0 <= c < 64 -> 0 <= d < 64 ->
  base64.quantum_val [a; b; c; d] = a * 262144 + b * 4096 + c * 64 + d.
Proof.
  intros Ha Hb Hc Hd. unfold base64.quantum_val. cbn [nth].
  replace (Z.shiftl a 18) with (Z.shiftl (Z.shiftl a 6) 12)
    by (rewrite Z.shiftl_shiftl by lia; reflexivity).
  rewrite <- Z.shiftl_lor.
  rewrite (lor_shiftl_small a b 6) by lia.
  replace (Z.shiftl (a * 2 ^ 6 + b) 12) with (Z.shiftl (Z.shiftl (a * 2 ^ 6 + b) 6) 6)
    by (rewrite Z.shiftl_shiftl by lia; reflexivity).
  rewrite <- Z.shiftl_lor.
  rewrite (lor_shiftl_small _ c 6) by lia.
  rewrite (lor_shiftl_small _ d 6) by lia.
  change (2 ^ 6) with 64. lia.
Qed.

Lemma quantum_val_pad (l : list Z) :
  base64.quantum_val l = base64.quantum_val (l ++ [0]).
Proof.
  unfold base64.quantum_val.
  destruct l as [|a [|b [|c [|d l]]]]; cbn [nth app]; rewrite ?Z.shiftl_0_l, ?Z.lor_0_r; reflexivity.
Qed.

Lemma sextet_bits (c : byte) :
  base64.in_alphabet c = true ->
  let d := base64.decodeMap c in
  d = 32 * Z.b2z (Z.testbit d 5) + 16 * Z.b2z (Z.testbit d 4) + 8 * Z.b2z (Z.testbit d 3)
      + 4 * Z.b2z (Z.testbit d 2) + 2 * Z.b2z (Z.testbit d 1) + Z.b2z (Z.testbit d 0).
Proof. destruct c; vm_compute; intros H; first [discriminate H | reflexivity]. Qed.

Lemma b2z_range (b : bool) : 0 <= Z.b2z b <= 1.
Proof. destruct b; simpl; lia. Qed.

Lemma byte_of_Z_mod (x y : Z) : x mod 256 = y mod 256 -> base64.byte_of_Z x = base64.byte_of_Z y.
Proof. unfold base64.byte_of_Z. intros ->. reflexivity. Qed.

Ltac bits_of c H :=
  let E := fresh "E" in
  pose proof (sextet_bits c H) as E; cbv zeta in E;
  pose proof (decodeMap_range c H);
  pose proof (b2z_range (Z.testbit (base64.decodeMap c) 5));
  pose proof (b2z_range (Z.testbit (base64.decodeMap c) 4));
  pose proof (b2z_range (Z.testbit (base64.decodeMap c) 3));
  pose proof (b2z_range (Z.testbit (base64.decodeMap c) 2));
  pose proof (b2z_range (Z.testbit (base64.decodeMap c) 1));
  pose proof (b2z_range (Z.testbit (base64.decodeMap c) 0));
  generalize dependent (Z.b2z (Z.testbit (base64.decodeMap c) 5));
  generalize dependent (Z.b2z (Z.testbit (base64.decodeMap c) 4));
  generalize dependent (Z.b2z (Z.testbit (base64.decodeMap c) 3));
  generalize dependent (Z.b2z (Z.testbit (base64.decodeMap c) 2));
  generalize dependent (Z.b2z (Z.testbit (base64.decodeMap c) 1));
  generalize dependent (Z.b2z (Z.testbit (base64.decodeMap c) 0));
  generalize dependent (base64.decodeMap c); intros.

Lemma quantum4 (a b c d : byte) :
  base64.in_alphabet a = true -> base64.in_alphabet b = true ->
  base64.in_alphabet c = true -> base64.in_alphabet d = true ->
  base64.quantum_bytes [base64.decodeMap a; base64.decodeMap b; base64.decodeMap c; base64.decodeMap d]
  = base64.octets (base64.sextet a ++ base64.sextet b ++ base64.sextet c ++ base64.sextet d).
Proof.
  intros Ha Hb Hc Hd.
  unfold base64.quantum_bytes.
  rewrite quantum_val_arith by (apply decodeMap_range; assumption).
  cbn [length Nat.sub firstn base64.sextet app base64.octets].
  unfold base64.bits_to_Z. cbn [fold_left].
  rewrite !Z.shiftr_div_pow2 by lia.
  bits_of a Ha. bits_of b Hb. bits_of c Hc. bits_of d Hd. subst.
  change (2 ^ 16) with 65536; change (2 ^ 8) with 256.
  f_equal; [| f_equal; [| f_equal]]; apply byte_of_Z_mod.
  all: Z.div_mod_to_equations; lia.
Qed.

Lemma quantum3 (a b c : byte) :
  base64.in_alphabet a = true -> base64.in_alphabet b = true ->
  base64.in_alphabet c = true ->
  base64.quantum_bytes [base64.decodeMap a; base64.decodeMap b; base64.decodeMap c]
  = base64.octets (base64.sextet a ++ base64.sextet b ++ base64.sextet c).
Proof.
  intros Ha Hb Hc.
  unfold base64.quantum_bytes.
  rewrite quantum_val_pad. cbn [app].
  rewrite quantum_val_arith by (try (apply decodeMap_range; assumption); lia).
  cbn [length Nat.sub firstn base64.sextet app base64.octets].
  unfold base64.bits_to_Z. cbn [fold_left].
  rewrite !Z.shiftr_div_pow2 by lia.
  bits_of a Ha. bits_of b Hb. bits_of c Hc. subst.
  change (2 ^ 16) with 65536; change (2 ^ 8) with 256.
  f_equal; [| f_equal]; apply byte_of_Z_mod.
  all: Z.div_mod_to_equations; lia.
Qed.

Lemma quantum2 (a b : byte) :
  base64.in_alphabet a = true -> base64.in_alphabet b = true ->
  base64.quantum_bytes [base64.decodeMap a; base64.decodeMap b]
  = base64.octets (base64.sextet a ++ base64.sextet b).
Proof.
  intros Ha Hb.
  unfold base64.quantum_bytes.
  rewrite quantum_val_pad. cbn [app]. rewrite quantum_val_pad. cbn [app].
  rewrite quantum_val_arith by (try (apply decodeMap_range; assumption); lia).
  cbn [length Nat.sub firstn base64.sextet app base64.octets].
  unfold base64.bits_to_Z. cbn [fold_left].
  rewrite !Z.shiftr_div_pow2 by lia.
  bits_of a Ha. bits_of b Hb. subst.
  change (2 ^ 16) with 65536.
  f_equal; apply byte_of_Z_mod.
  all: Z.div_mod_to_equations; lia.
Qed.

(** Unfolding of one step of [decode]. *)
Lemma decode_alpha c s dbuf dst :
  base64.in_alphabet c = true ->
  base64.decode (c :: s) dbuf dst =
  if (length (dbuf ++ [base64.decodeMap c]) =? 4)%nat
  then base64.decode s [] (dst ++ base64.quantum_bytes (dbuf ++ [base64.decodeMap c]))
  else base64.decode s (dbuf ++ [base64.decodeMap c]) dst.
Proof. unfold base64.in_alphabet. intros H. cbn [base64.decode]. rewrite H. reflexivity. Qed.

Lemma newline_not_alpha c : base64.isNewline c = true -> base64.in_alphabet c = false.
Proof. destruct c; vm_compute; intros H; first [discriminate H | reflexivity]. Qed.

Lemma pad_not_alpha c : base64.is_pad c = true -> base64.in_alphabet c = false.
Proof. destruct c; vm_compute; intros H; first [discriminate H | reflexivity]. Qed.

Lemma pad_not_newline c : base64.is_pad c = true -> base64.isNewline c = false.
Proof. destruct c; vm_compute; intros H; first [discriminate H | reflexivity]. Qed.

Lemma decode_newline c s dbuf dst :
  base64.isNewline c = true -> base64.decode (c :: s) dbuf dst = base64.decode s dbuf dst.
Proof.
  intros H. pose proof (newline_not_alpha c H) as Ha. unfold base64.in_alphabet in Ha.
  cbn [base64.decode]. rewrite Ha, H. reflexivity.
Qed.

Lemma decode_pad c s dbuf dst :
  base64.is_pad c = true ->
  base64.decode (c :: s) dbuf dst =
  match length dbuf with
  | 0%nat | 1%nat => (dst, Some CorruptInputError)
  | 2%nat =>
      match base64.skipNewlines s with
      | [] => (dst, Some CorruptInputError)
      | c2 :: src2 =>
          if base64.is_pad c2 then base64.padding_end src2 dbuf dst
          else (dst, Some CorruptInputError)
      end
  | _ => base64.padding_end s dbuf dst
  end.
Proof.
  intros H. pose proof (pad_not_alpha c H) as Ha. pose proof (pad_not_newline c H) as Hn.
  unfold base64.in_alphabet in Ha. unfold base64.is_pad in H.
  cbn [base64.decode]. rewrite Ha, Hn, H. reflexivity.
Qed.

Lemma decode_bad c s dbuf dst :
  base64.in_alphabet c = false -> base64.isNewline c = false -> base64.is_pad c = false ->
  base64.decode (c :: s) dbuf dst = (dst, Some CorruptInputError).
Proof.
  unfold base64.in_alphabet, base64.is_pad. intros Ha Hn Hp.
  cbn [base64.decode]. rewrite Ha, Hn, Hp. reflexivity.
Qed.

Lemma list_ind4 {A} (P : list A -> Prop) :
  P [] -> (forall a, P [a]) -> (forall a b, P [a; b]) -> (forall a b c, P [a; b; c]) ->
  (forall a b c d l, P l -> P (a :: b :: c :: d :: l)) ->
  forall l, P l.
Proof.
  intros H0 H1 H2 H3 H4.
  fix IH 1. intros [|a [|b [|c [|d l]]]];
    [apply H0 | apply H1 | apply H2 | apply H3 | apply H4, IH].
Qed.

Lemma alpha_not_pad c : base64.in_alphabet c = true -> base64.is_pad c = false.
Proof. destruct c; vm_compute; intros H; first [discriminate H | reflexivity]. Qed.

Lemma decode_valid l :
  forall dst, base64.valid_groups l = true ->
  base64.decode l [] dst =
  (dst ++ base64.octets (flat_map base64.sextet (List.filter nonpad l)), None).
Proof.
  induction l as [| a | a b | a b c | a b c d l IH] using list_ind4; intros dst Hv;
    try discriminate Hv.
  - cbn. rewrite app_nil_r. reflexivity.
  - cbn [base64.valid_groups] in Hv.
    destruct l as [|e l].
    + apply andb_prop in Hv as [Hab Hcd]. apply andb_prop in Hab as [Ha Hb].
      rewrite decode_alpha by assumption. cbn [app length Nat.eqb].
      rewrite decode_alpha by assumption. cbn [app length Nat.eqb].
      cbn [List.filter]. rewrite (alpha_not_pad a Ha), (alpha_not_pad b Hb). cbn [negb].
      apply orb_prop in Hcd as [Hcd | Hcd]; apply andb_prop in Hcd as [Hc Hd].
      * rewrite decode_alpha by assumption. cbn [app length Nat.eqb].
        rewrite (alpha_not_pad c Hc). cbn [negb].
        apply orb_prop in Hd as [Hd | Hd].
        -- rewrite decode_alpha by assumption. cbn [app length Nat.eqb].
           rewrite (alpha_not_pad d Hd). cbn [negb flat_map base64.decode].
           rewrite quantum4 by assumption. rewrite !app_nil_r. reflexivity.
        -- rewrite decode_pad by assumption. cbn [length].
           unfold base64.padding_end. cbn [base64.skipNewlines].
           rewrite Hd. cbn [negb flat_map].
           rewrite quantum3 by assumption. rewrite !app_nil_r. reflexivity.
      * rewrite decode_pad by assumption. cbn [length].
        pose proof (pad_not_newline d Hd) as Hn.
        cbn [base64.skipNewlines]. rewrite Hn, Hd.
        unfold base64.padding_end. cbn [base64.skipNewlines].
        rewrite Hc. cbn [negb flat_map].
        rewrite quantum2 by assumption. rewrite !app_nil_r. reflexivity.
    + apply andb_prop in Hv as [Hv Hl]. apply andb_prop in Hv as [Hv Hd].
      apply andb_prop in Hv as [Hv Hc]. apply andb_prop in Hv as [Ha Hb].
      rewrite decode_alpha by assumption. cbn [app length Nat.eqb].
      rewrite decode_alpha by assumption. cbn [app length Nat.eqb].
      rewrite decode_alpha by assumption. cbn [app length Nat.eqb].
      rewrite decode_alpha by assumption. cbn [app length Nat.eqb].
      rewrite IH by assumption.
      rewrite quantum4 by assumption.
      cbn [List.filter]. rewrite (alpha_not_pad a Ha), (alpha_not_pad b Hb), (alpha_not_pad c Hc), (alpha_not_pad d Hd).
      cbn [negb]. 
      remember (List.filter nonpad (e :: l)) as tl.
      cbn [flat_map]. 
      remember (flat_map base64.sextet tl) as bits.
      cbn [base64.sextet app base64.octets]. rewrite <- app_assoc. reflexivity.
Qed.

Lemma skip_remove l : base64.skipNewlines (base64.removeNewlines l) = base64.removeNewlines l.
Proof.
  unfold base64.removeNewlines.
  induction l as [|c l IH]; [reflexivity|].
  cbn [List.filter]. destruct (base64.isNewline c) eqn:E; cbn [negb]; [exact IH|].
  cbn [base64.skipNewlines]. rewrite E. reflexivity.
Qed.

Lemma remove_skip l : base64.removeNewlines (base64.skipNewlines l) = base64.removeNewlines l.
Proof.
  unfold base64.removeNewlines.
  induction l as [|c l IH]; [reflexivity|].
  cbn [base64.skipNewlines List.filter]. destruct (base64.isNewline c) eqn:E; cbn [negb]; [exact IH|].
  cbn [List.filter]. rewrite E. reflexivity.
Qed.

Lemma skip_head l c r : base64.skipNewlines l = c :: r -> base64.isNewline c = false.
Proof.
  induction l as [|x l IH]; [discriminate|].
  cbn [base64.skipNewlines]. destruct (base64.isNewline x) eqn:E; [exact IH|].
  intros [= <- <-]. exact E.
Qed.

Lemma skip_nil l : base64.skipNewlines l = [] <-> base64.removeNewlines l = [].
Proof.
  rewrite <- (remove_skip l).
  destruct (base64.skipNewlines l) as [|c r] eqn:E; [split; reflexivity|].
  pose proof (skip_head _ _ _ E) as Hc. unfold base64.removeNewlines. cbn [List.filter]. rewrite Hc.
  split; discriminate.
Qed.

Lemma padding_end_remove s dbuf dst :
  base64.padding_end s dbuf dst = base64.padding_end (base64.removeNewlines s) dbuf dst.
Proof.
  unfold base64.padding_end. rewrite skip_remove.
  destruct (base64.skipNewlines s) as [|c r] eqn:E.
  - apply skip_nil in E. rewrite E. reflexivity.
  - destruct (base64.removeNewlines s) eqn:E'; [|reflexivity].
    apply skip_nil in E'. congruence.
Qed.

Lemma decode_removeNewlines src :
  forall dbuf dst,
  base64.decode src dbuf dst = base64.decode (base64.removeNewlines src) dbuf dst.
Proof.
  induction src as [|c s IH]; intros dbuf dst; [reflexivity|].
  unfold base64.removeNewlines. cbn [List.filter]. fold (base64.removeNewlines s).
  destruct (base64.isNewline c) eqn:En; cbn [negb].
  - rewrite decode_newline by assumption. apply IH.
  - destruct (base64.in_alphabet c) eqn:Ea.
    + rewrite !decode_alpha by assumption.
      destruct (length (dbuf ++ [base64.decodeMap c]) =? 4)%nat; apply IH.
    + destruct (base64.is_pad c) eqn:Ep.
      * rewrite !decode_pad by assumption.
        destruct (length dbuf) as [|[|[|n]]]; try reflexivity.
        -- rewrite skip_remove.
           destruct (base64.skipNewlines s) as [|c2 r] eqn:E.
           ++ apply skip_nil in E. rewrite E. reflexivity.
           ++ rewrite <- (remove_skip s), E.
              pose proof (skip_head _ _ _ E) as Hc2.
              unfold base64.removeNewlines at 1. cbn [List.filter]. rewrite Hc2. cbn [negb].
              fold (base64.removeNewlines r).
              destruct (base64.is_pad c2); [apply padding_end_remove | reflexivity].
        -- apply padding_end_remove.
      * rewrite !decode_bad by assumption. reflexivity.
Qed.

Lemma skip_nl_free l : nl_free l -> base64.skipNewlines l = l.
Proof. intros H. destruct H as [|c l Hc Hl]; [reflexivity|]. cbn. rewrite Hc. reflexivity. Qed.

Ltac step_char x Hn :=
  let Ea := fresh "Ea" in let Ep := fresh "Ep" in
  destruct (base64.in_alphabet x) eqn:Ea;
  [ rewrite (decode_alpha x) by exact Ea; cbn [app length Nat.eqb]
  | destruct (base64.is_pad x) eqn:Ep;
    [ rewrite (decode_pad x) by exact Ep; cbn [length]
    | rewrite (decode_bad x) by (first [exact Ea | exact Hn | exact Ep]) ] ].

Lemma decode_ok_valid l :
  nl_free l -> forall dst, snd (base64.decode l [] dst) = None -> base64.valid_groups l = true.
Proof.
  induction l as [| a | a b | a b c | a b c d l IH] using list_ind4; intros Hf dst.
  - reflexivity.
  - inversion_clear Hf as [|? ? Ha _].
    step_char a Ha; cbn; discriminate.
  - inversion_clear Hf as [|? ? Ha Hf']. inversion_clear Hf' as [|? ? Hb _].
    step_char a Ha; [step_char b Hb|..]; cbn; discriminate.
  - inversion_clear Hf as [|? ? Ha Hf']. inversion_clear Hf' as [|? ? Hb Hf].
    inversion_clear Hf as [|? ? Hc _].
    step_char a Ha; [step_char b Hb; [step_char c Hc|..]|..]; cbn; discriminate.
  - inversion_clear Hf as [|? ? Ha Hf']. inversion_clear Hf' as [|? ? Hb Hf].
    inversion_clear Hf as [|? ? Hc Hf']. inversion_clear Hf' as [|? ? Hd Hl].
    cbn [base64.valid_groups].
    step_char a Ha; [|cbn; discriminate..].
    step_char b Hb; [|cbn; discriminate..].
    step_char c Hc; [| |cbn; discriminate].
    + step_char d Hd; [| |cbn; discriminate].
      * intros H. apply IH in H; [|assumption].
        destruct l; [reflexivity|]. rewrite H. reflexivity.
      * unfold base64.padding_end. rewrite (skip_nl_free l Hl).
        destruct l; [reflexivity | cbn; discriminate].
    + cbn [base64.skipNewlines]. rewrite Hd.
      destruct (base64.is_pad d) eqn:Epd; [|cbn; discriminate].
      unfold base64.padding_end. rewrite (skip_nl_free l Hl).
      destruct l; [|cbn; discriminate]. intros _.
      rewrite (pad_not_alpha d Epd). reflexivity.
Qed.

Lemma removeNewlines_nl_free l : nl_free (base64.removeNewlines l).
Proof.
  apply List.Forall_forall. intros c Hc. apply List.filter_In in Hc as [_ Hc].
  destruct (base64.isNewline c); [discriminate Hc | reflexivity].
Qed.

(** [DecodeString] succeeds exactly on the strings that are valid once
    their CR and LF characters are removed. *)
Lemma DecodeString_ok_iff (s : string) :
  snd (base64.DecodeString s) = None <->
  base64.valid_groups (base64.removeNewlines (list_byte_of_string s)) = true.
Proof.
  unfold base64.DecodeString. rewrite decode_removeNewlines. split.
  - apply decode_ok_valid, removeNewlines_nl_free.
  - intros H. rewrite decode_valid by assumption. reflexivity.
Qed.

Lemma decode_error_kind l : forall dbuf dst e,
  snd (base64.decode l dbuf dst) = Some e -> e = CorruptInputError.
Proof.
  induction l as [|c l IH]; intros dbuf dst e.
  - destruct dbuf; cbn; congruence.
  - destruct (base64.isNewline c) eqn:En.
    { rewrite decode_newline by assumption. apply IH. }
    destruct (base64.in_alphabet c) eqn:Ea.
    { rewrite decode_alpha by assumption.
      destruct (length (dbuf ++ [base64.decodeMap c]) =? 4)%nat; apply IH. }
    destruct (base64.is_pad c) eqn:Ep.
    + rewrite decode_pad by assumption. unfold base64.padding_end.
      destruct (length dbuf) as [|[|[|n]]]; cbn [snd]; try congruence.
      * destruct (base64.skipNewlines l) as [|c2 r]; cbn [snd]; try congruence.
        destruct (base64.is_pad c2); cbn [snd]; try congruence.
        destruct (base64.skipNewlines r); cbn [snd]; congruence.
      * destruct (base64.skipNewlines l); cbn [snd]; congruence.
    + rewrite decode_bad by assumption. cbn. congruence.
Qed.

Lemma enc_char_dec (d : Z) :
  0 <= d < 64 ->
  base64.decodeMap (base64.enc_char d) = d /\ base64.in_alphabet (base64.enc_char d) = true.
Proof.
  intros Hd.
  assert (Hall : forallb (fun n => (base64.decodeMap (base64.enc_char (Z.of_nat n)) =? Z.of_nat n)
                                   && base64.in_alphabet (base64.enc_char (Z.of_nat n)))
                         (seq 0 64) = true) by (vm_compute; reflexivity).
  rewrite forallb_forall in Hall.
  specialize (Hall (Z.to_nat d)). rewrite Z2Nat.id in Hall by lia.
  assert (Hin : In (Z.to_nat d) (seq 0 64)) by (apply in_seq; lia).
  apply Hall in Hin. apply andb_prop in Hin as [H1 H2].
  split; [apply Z.eqb_eq; exact H1 | exact H2].
Qed.

Lemma byte_of_Z_to_N (x : byte) : base64.byte_of_Z (Z.of_N (Byte.to_N x)) = x.
Proof. destruct x; reflexivity. Qed.

Lemma to_N_range (x : byte) : 0 <= Z.of_N (Byte.to_N x) < 256.
Proof. pose proof (Byte.to_N_bounded x). lia. Qed.

Lemma list_ind3 {A} (P : list A -> Prop) :
  P [] -> (forall a, P [a]) -> (forall a b, P [a; b]) ->
  (forall a b c l, P l -> P (a :: b :: c :: l)) ->
  forall l, P l.
Proof.
  intros H0 H1 H2 H3.
  fix IH 1. intros [|a [|b [|c l]]];
    [apply H0 | apply H1 | apply H2 | apply H3, IH].
Qed.

Lemma byte_of_Z_eq (v : Z) (x : byte) :
  v mod 256 = Z.of_N (Byte.to_N x) -> base64.byte_of_Z v = x.
Proof.
  intros H. rewrite <- (byte_of_Z_to_N x). apply byte_of_Z_mod.
  rewrite H. symmetry. apply Z.mod_small, to_N_range.
Qed.

Ltac enc_digit d :=
  let H := fresh "Hd" in
  assert (H : 0 <= d < 64) by (Z.div_mod_to_equations; lia);
  destruct (enc_char_dec d H) as [? ?].

Lemma decode_encode (bs : list byte) :
  forall dst, base64.decode (base64.encode bs) [] dst = (dst ++ bs, None).
Proof.
  induction bs as [| x | x y | x y z bs IH] using list_ind3; intros dst.
  - cbn. rewrite app_nil_r. reflexivity.
  - cbn [base64.encode].
    pose proof (to_N_range x). set (v := Z.of_N (Byte.to_N x)) in *.
    enc_digit (v / 4). enc_digit ((v mod 4) * 16).
    rewrite decode_alpha by assumption. cbn [app length Nat.eqb].
    rewrite decode_alpha by assumption. cbn [app length Nat.eqb].
    rewrite decode_pad by reflexivity. cbn [length base64.skipNewlines].
    change (base64.isNewline base64.padChar) with false.
    change (base64.is_pad base64.padChar) with true. cbv iota.
    unfold base64.padding_end. cbn [base64.skipNewlines].
    do 2 f_equal. unfold base64.quantum_bytes.
    do 2 (rewrite quantum_val_pad; cbn [app]).
    rewrite quantum_val_arith by lia.
    cbn [length Nat.sub firstn]. rewrite Z.shiftr_div_pow2 by lia.
    f_equal. apply byte_of_Z_eq. fold v. 
    match goal with H1 : base64.decodeMap _ = _, H2 : base64.decodeMap _ = _ |- _ => rewrite H1, H2 end.
    change (2 ^ 16) with 65536. Z.div_mod_to_equations; lia.
  - cbn [base64.encode].
    pose proof (to_N_range x). pose proof (to_N_range y).
    set (v := Z.of_N (Byte.to_N x) * 256 + Z.of_N (Byte.to_N y)) in *.
    enc_digit (v / 1024). enc_digit ((v / 16) mod 64). enc_digit ((v mod 16) * 4).
    rewrite decode_alpha by assumption. cbn [app length Nat.eqb].
    rewrite decode_alpha by assumption. cbn [app length Nat.eqb].
    rewrite decode_alpha by assumption. cbn [app length Nat.eqb].
    rewrite decode_pad by reflexivity. cbn [length].
    unfold base64.padding_end. cbn [base64.skipNewlines].
    do 2 f_equal. unfold base64.quantum_bytes.
    rewrite quantum_val_pad; cbn [app].
    rewrite quantum_val_arith by lia.
    cbn [length Nat.sub firstn]. rewrite !Z.shiftr_div_pow2 by lia.
    repeat match goal with H1 : base64.decodeMap _ = _ |- _ => rewrite H1; clear H1 end.
    change (2 ^ 16) with 65536. change (2 ^ 8) with 256.
    f_equal; [|f_equal]; apply byte_of_Z_eq; subst v; Z.div_mod_to_equations; lia.
  - cbn [base64.encode].
    pose proof (to_N_range x). pose proof (to_N_range y). pose proof (to_N_range z).
    set (v := (Z.of_N (Byte.to_N x) * 256 + Z.of_N (Byte.to_N y)) * 256 + Z.of_N (Byte.to_N z)) in *.
    enc_digit (v / 262144). enc_digit ((v / 4096) mod 64).
    enc_digit ((v / 64) mod 64). enc_digit (v mod 64).
    rewrite decode_alpha by assumption. cbn [app length Nat.eqb].
    rewrite decode_alpha by assumption. cbn [app length Nat.eqb].
    rewrite decode_alpha by assumption. cbn [app length Nat.eqb].
    rewrite decode_alpha by assumption. cbn [app length Nat.eqb].
    rewrite IH.
    replace (dst ++ x :: y :: z :: bs) with ((dst ++ [x; y; z]) ++ bs)
      by (rewrite <- app_assoc; reflexivity).
    do 3 f_equal. unfold base64.quantum_bytes.
    rewrite quantum_val_arith by lia.
    cbn [length Nat.sub firstn]. rewrite !Z.shiftr_div_pow2 by lia.
    repeat match goal with H1 : base64.decodeMap _ = _ |- _ => rewrite H1; clear H1 end.
    change (2 ^ 16) with 65536. change (2 ^ 8) with 256.
    f_equal; [|f_equal; [|f_equal]]; apply byte_of_Z_eq; subst v; Z.div_mod_to_equations; lia.
Qed.

Lemma encode_valid (bs : list byte) : base64.valid_groups (base64.encode bs) = true.
Proof.
  induction bs as [| x | x y | x y z bs IH] using list_ind3.
  - reflexivity.
  - cbn [base64.encode base64.valid_groups].
    pose proof (to_N_range x). set (v := Z.of_N (Byte.to_N x)) in *.
    enc_digit (v / 4). enc_digit ((v mod 4) * 16).
    repeat match goal with H1 : base64.in_alphabet _ = true |- _ => rewrite H1; clear H1 end.
    reflexivity.
  - cbn [base64.encode base64.valid_groups].
    pose proof (to_N_range x). pose proof (to_N_range y).
    set (v := Z.of_N (Byte.to_N x) * 256 + Z.of_N (Byte.to_N y)) in *.
    enc_digit (v / 1024). enc_digit ((v / 16) mod 64). enc_digit ((v mod 16) * 4).
    repeat match goal with H1 : base64.in_alphabet _ = true |- _ => rewrite H1; clear H1 end.
    reflexivity.
  - cbn [base64.encode base64.valid_groups].
    pose proof (to_N_range x). pose proof (to_N_range y). pose proof (to_N_range z).
    set (v := (Z.of_N (Byte.to_N x) * 256 + Z.of_N (Byte.to_N y)) * 256 + Z.of_N (Byte.to_N z)) in *.
    enc_digit (v / 262144). enc_digit ((v / 4096) mod 64).
    enc_digit ((v / 64) mod 64). enc_digit (v mod 64).
    repeat match goal with H1 : base64.in_alphabet _ = true |- _ => rewrite H1; clear H1 end.
    rewrite IH. cbn [andb orb]. destruct (base64.encode bs); reflexivity.
Qed.

(** The reference decoder inverts the encoder, and so does [DecodeString]. *)
Lemma base64_roundtrip (bs : list byte) :
  base64.valid_std (base64.EncodeToString bs) = true /\
  base64.base64_decode (base64.EncodeToString bs) = bs /\
  base64.DecodeString (base64.EncodeToString bs) = (bs, None).
Proof.
  unfold base64.valid_std, base64.base64_decode, base64.DecodeString, base64.EncodeToString.
  rewrite list_byte_of_string_of_list_byte.
  pose proof (encode_valid bs) as Hv.
  pose proof (decode_valid _ [] Hv) as Hd. rewrite decode_encode in Hd.
  cbn [app] in Hd. injection Hd as Hd.
  split; [exact Hv|]. split; [symmetry; exact Hd|]. apply (decode_encode bs []).
Qed.

(** ** encoding/json *)

Open Scope nat_scope.

Lemma skip_ws_length (s : list byte) : length (json.skip_ws s) <= length s.
Proof.
  induction s as [|c s IH]; cbn [json.skip_ws]; [lia|].
  destruct (json.isSpace c); cbn [length] in *; lia.
Qed.

Lemma skip_ws_cons (s : list byte) c r : json.skip_ws s = c :: r -> length r < length s.
Proof. intros H. pose proof (skip_ws_length s) as Hl. rewrite H in Hl. cbn [length] in Hl. lia. Qed.

Ltac break_step :=
  match goal with
  | H : Some _ = Some _ |- _ => injection H as H; try subst
  | H : (_, _) = (_, _) |- _ => injection H as H; try subst
  | H : None = Some _ |- _ => discriminate H
  | H : context [match ?x with _ => _ end] |- _ =>
      lazymatch x with
      | context [json.string_body] => fail
      | context [json.parse_at] => fail
      | _ => destruct x eqn:?
      end
  end.

Lemma string_body_length (s : list byte) :
  forall k skip acc str r, json.string_body s k skip acc = Some (str, r) -> length r < length s.
Proof.
  induction s as [|c s IH]; intros k skip acc str r H; [discriminate H|].
  cbn [json.string_body] in H. cbn [length].
  assert (Hrec : forall k' skip' acc', json.string_body s k' skip' acc' = Some (str, r) ->
                                       length r < S (length s)).
  { intros k' skip' acc' H'. apply IH in H'. lia. }
  repeat break_step; try (eapply Hrec; eassumption); try lia.
Qed.

Lemma digits_length (s : list byte) d r : json.digits s = (d, r) -> length r <= length s.
Proof.
  revert d r. induction s as [|c s IH]; intros d r H; cbn [json.digits] in H.
  - injection H as <- <-. lia.
  - destruct (json.is_digit c).
    + destruct (json.digits s) as [d' r'] eqn:E. injection H as <- <-.
      specialize (IH _ _ eq_refl). cbn [length]. lia.
    + injection H as <- <-. lia.
Qed.

Lemma number_length (s : list byte) lit r : json.number s = Some (lit, r) -> length r < length s.
Proof.
  unfold json.number. intros H.
  repeat (case_match; simplify_eq);
    repeat match goal with
           | H : json.digits _ = (_, _) |- _ => apply digits_length in H
           end;
    cbn [length] in *; lia.
Qed.

Lemma literal_length (lit s r : list byte) : json.literal lit s = Some r -> length r <= length s.
Proof.
  revert s. induction lit as [|l lit IH]; intros s H; cbn [json.literal] in H.
  - destruct s; injection H as <-; lia.
  - destruct s as [|c s]; [discriminate H|]. destruct (Byte.eqb l c); [|discriminate H].
    apply IH in H. cbn [length]. lia.
Qed.

Lemma parse_at_length (fuel : nat) :
  forall m depth es ms s v r,
  json.parse_at fuel m depth es ms s = Some (v, r) -> length r < length s.
Proof.
  induction fuel as [|fuel IH]; intros m depth es ms s v r H; [discriminate H|].
  cbn [json.parse_at] in H. unfold option_map in H.
  destruct m; repeat (case_match; simplify_eq);
    repeat match goal with
           | H : json.parse_at _ _ _ _ _ _ = Some (_, _) |- _ => apply IH in H
           | H : json.skip_ws _ = _ :: _ |- _ => apply skip_ws_cons in H
           | H : json.string_body _ _ _ _ = Some (_, _) |- _ => apply string_body_length in H
           | H : json.number _ = Some (_, _) |- _ => apply number_length in H
           | H : json.literal _ _ = Some _ |- _ => apply literal_length in H
           end;
    cbn [length] in *; lia.
Qed.

Ltac lengths :=
  repeat match goal with
         | H : json.parse_at _ _ _ _ _ _ = Some (_, _) |- _ => apply parse_at_length in H
         | H : json.skip_ws _ = _ :: _ |- _ => apply skip_ws_cons in H
         | H : json.string_body _ _ _ _ = Some (_, _) |- _ => apply string_body_length in H
         end;
  unfold json.need in *; cbn [length] in *; lia.

Ltac fuel_step IH f1 f2 :=
  match goal with
  | |- context [match json.parse_at f1 ?m ?d ?es ?ms ?s with _ => _ end] =>
      rewrite (IH f2 m d es ms s) by lengths
  | |- context [match ?x with _ => _ end] =>
      lazymatch x with
      | context [json.parse_at f1] => fail
      | _ => destruct x eqn:?
      end
  | |- json.parse_at f1 _ _ _ _ _ = json.parse_at f2 _ _ _ _ _ => apply IH; lengths
  | |- _ => reflexivity
  end.

Lemma parse_at_fuel (fuel1 : nat) :
  forall fuel2 m depth es ms s,
  json.need m s <= fuel1 -> json.need m s <= fuel2 ->
  json.parse_at fuel1 m depth es ms s = json.parse_at fuel2 m depth es ms s.
Proof.
  induction fuel1 as [|f1 IH]; intros [|f2] m depth es ms s H1 H2;
    try (unfold json.need in *; destruct m; lia).
  cbn [json.parse_at]. unfold option_map.
  destruct m; repeat (fuel_step IH f1 f2).
Qed.

(** [parse] does not depend on the fuel it hands out: any larger amount
    gives the same answer, so [None] is a rejection by the grammar. *)
Lemma parse_fuel_enough (b : list byte) (fuel : nat) :
  2 * length b + 2 <= fuel ->
  json.parse_at fuel json.mValue 0 [] [] b
  = json.parse_at (2 * length b + 2) json.mValue 0 [] [] b.
Proof. intros H. apply parse_at_fuel; unfold json.need; lia. Qed.

Close Scope nat_scope.

(** ** The hooks *)

Ltac proj :=
  cbn [res store this ctx req set_ctx set_res set_store fst snd
       http.Response.Body http.Response.Header http.Response.ContentLength
       http.Response.rest martian.SkipRoundTrip martian.rest option_fmap option_map fmap].

Ltac unfold_hooks :=
  unfold ModifyResponse, ModifyRequest, ReadAll_Body, Body_Close, Header_Set, Header_Del,
    assign_ContentLength, NopCloser_NewReader, assign_Body, assign_SkipRoundTrip,
    get, modify, panic, mbind, mret, M_bind, M_ret.

Section HookProperties.

Context {Request CtxRest ResRest : Type}.
Abbreviation World := (World Request CtxRest ResRest).
Abbreviation M := (@M Request CtxRest ResRest).

Lemma canonical_Content_Type : http.CanonicalMIMEHeaderKey "Content-Type" = "Content-Type"%string.
Proof. reflexivity. Qed.

Lemma canonical_Content_Encoding :
  http.CanonicalMIMEHeaderKey "Content-Encoding" = "Content-Encoding"%string.
Proof. reflexivity. Qed.

(** [ModifyRequest] on any world. *)
Lemma ModifyRequest_run (w : World) :
  ModifyRequest w = (Returns None, set_ctx (martian.mkContext true (martian.rest (ctx w))) w).
Proof. reflexivity. Qed.

Lemma repeat_call_S (n : nat) (hook : M (option error)) (w : World) :
  repeat_call (S n) hook w =
  match hook w with
  | (Returns e, w1) =>
      match repeat_call n hook w1 with
      | (Returns es, w2) => (Returns (e :: es), w2)
      | (Panics msg, w2) => (Panics msg, w2)
      end
  | (Panics msg, w1) => (Panics msg, w1)
  end.
Proof. reflexivity. Qed.

(** [ModifyResponse] on any world, path by path. *)
Lemma ModifyResponse_run (w : World) :
  ModifyResponse w =
  match http.Response.Body (res w) with
  | None => (Panics "invalid memory address or nil pointer dereference", w)
  | Some l =>
      match store w !! l with
      | None => (Panics "invalid memory address or nil pointer dereference", w)
      | Some rc =>
          match http.Response.Header (res w) with
          | None => (Panics "assignment to entry in nil map",
                     set_store (<[l := Close rc]> (store w)) w)
          | Some h => (Returns None, overridden w l rc h)
          end
      end
  end.
Proof.
  destruct w as [m c rq [h b n r] st]. unfold_hooks. proj.
  destruct b as [l|]; [|reflexivity]. proj.
  destruct (st !! l) as [rc|]; [|reflexivity]. proj.
  destruct h as [h|]; reflexivity.
Qed.

Lemma ModifyResponse_returns (w w' : World) (e : option error) :
  ModifyResponse w = (Returns e, w') ->
  exists l rc h,
    http.Response.Body (res w) = Some l /\ store w !! l = Some rc /\
    http.Response.Header (res w) = Some h /\ e = None /\ w' = overridden w l rc h.
Proof.
  rewrite ModifyResponse_run.
  destruct (http.Response.Body (res w)) as [l|] eqn:Eb; [|discriminate].
  destruct (store w !! l) as [rc|] eqn:El; [|discriminate].
  destruct (http.Response.Header (res w)) as [h|] eqn:Eh; [|discriminate].
  intros [= <- <-]. exists l, rc, h. repeat split; assumption.
Qed.

Lemma fresh_loc_new (st : gmap http.loc ReadCloser) (l : http.loc) :
  is_Some (st !! l) -> fresh (dom st) <> l.
Proof.
  intros Hl Heq. apply elem_of_dom in Hl. rewrite <- Heq in Hl.
  exact (is_fresh (dom st) Hl).
Qed.

(** Reading the body installed by [ModifyResponse] to its end. *)
Lemma ReadAll_overridden (w : World) l rc h :
  exists w2, ReadAll_Body (overridden w l rc h) = (Returns (body (this w), None), w2).
Proof.
  unfold overridden, ReadAll_Body. unfold_hooks. proj.
  rewrite lookup_insert_eq. cbn [ReadAll Z.to_nat skipn]. eexists. reflexivity.
Qed.


(** C8: [ModifyResponse] changes the body stream, the content length and
    the Content-Type and Content-Encoding headers only: the modifier, the
    context, the request, the other fields of the response, every other
    header and every stream object other than the old and the new body are
    as before.  This holds for every call, also one that panics. *)
Theorem ModifyResponse_frame (w : World) :
  let w' := snd (ModifyResponse w) in
  this w' = this w /\ ctx w' = ctx w /\ req w' = req w /\
  http.Response.rest (res w') = http.Response.rest (res w) /\
  (is_Some (http.Response.Header (res w')) <-> is_Some (http.Response.Header (res w))) /\
  (forall key : string,
      key <> "Content-Type"%string -> key <> "Content-Encoding"%string ->
      header_lookup (res w') key = header_lookup (res w) key) /\
  (forall l : http.loc,
      http.Response.Body (res w) <> Some l -> http.Response.Body (res w') <> Some l ->
      store w' !! l = store w !! l).
Proof.
  rewrite ModifyResponse_run. unfold header_lookup.
  destruct (http.Response.Body (res w)) as [l|] eqn:Eb; [|cbn; rewrite Eb; tauto].
  destruct (store w !! l) as [rc|] eqn:El; [|cbn; rewrite Eb; tauto].
  destruct (http.Response.Header (res w)) as [h|] eqn:Eh; cbn [snd].
  - unfold overridden. proj.
    repeat split; try reflexivity; try (intros _; eauto).
    + intros key H1 H2. unfold http.Del, http.Set_.
      rewrite canonical_Content_Type, canonical_Content_Encoding.
      rewrite lookup_delete_ne, lookup_insert_ne by congruence. reflexivity.
    + intros l0 H1 H2.
      rewrite !lookup_insert_ne by congruence. reflexivity.
  - proj. rewrite Eh.
    repeat split; try reflexivity; try tauto.
    intros l0 H1 _. rewrite lookup_insert_ne by congruence. reflexivity.
Qed.

(** C9: neither hook changes the fields of the modifier; this holds for
    every call, for a run of calls, and when the installed body is read. *)
Theorem Modifier_immutable (w : World) :
  this (snd (ModifyRequest w)) = this w /\
  this (snd (ModifyResponse w)) = this w /\
  (forall n, this (snd (repeat_call n ModifyRequest w)) = this w) /\
  (forall n, this (snd (repeat_call n ModifyResponse w)) = this w) /\
  this (snd ((ModifyResponse ;; ReadAll_Body) w)) = this w.
Proof.
  assert (Hres : forall w0 : World, this (snd (ModifyResponse w0)) = this w0).
  { intros w0. rewrite ModifyResponse_run.
    destruct (http.Response.Body (res w0)) as [l|]; [|reflexivity].
    destruct (store w0 !! l) as [rc|]; [|reflexivity].
    destruct (http.Response.Header (res w0)) as [h|]; reflexivity. }
  assert (Hrep : forall (hook : M (option error)),
             (forall w0, this (snd (hook w0)) = this w0) ->
             forall n w0, this (snd (repeat_call n hook w0)) = this w0).
  { intros hook Hh n. induction n as [|n IH]; intros w0; [reflexivity|].
    cbn [repeat_call]. unfold mbind, M_bind, mret, M_ret.
    specialize (Hh w0). destruct (hook w0) as [[e|msg] w1]; cbn in Hh; [|exact Hh].
    specialize (IH w1). destruct (repeat_call n hook w1) as [[es|msg] w2]; cbn in *; congruence. }
  split; [reflexivity|]. split; [apply Hres|].
  split; [intros n; apply Hrep; reflexivity|].
  split; [intros n; apply Hrep, Hres|].
  unfold mbind, M_bind. specialize (Hres w).
  destruct (ModifyResponse w) as [[e|msg] w1] eqn:E; cbn in Hres; [|exact Hres].
  apply ModifyResponse_returns in E as (l & rc & h & _ & _ & _ & _ & ->).
  destruct (ReadAll_overridden w l rc h) as [w2 Hr]. rewrite Hr, <- Hres.
  unfold overridden, ReadAll_Body in Hr. revert Hr. unfold_hooks. proj.
  rewrite lookup_insert_eq. cbn [ReadAll Z.to_nat skipn]. intros [= <-]. reflexivity.
Qed.

(** C5: one call or more of [ModifyRequest] in a row all return nil and
    leave the world as it was but for the skip-round-trip flag, which is
    true: the rest of the context, the request, the response, the streams
    and the modifier are untouched. *)
Theorem ModifyRequest_idempotent (n : nat) (w : World) :
  (1 <= n)%nat ->
  repeat_call n ModifyRequest w =
  (Returns (repeat None n), set_ctx (martian.mkContext true (martian.rest (ctx w))) w).
Proof.
  intros Hn. destruct n as [|n]; [lia|]. clear Hn.
  revert w. induction n as [|n IH]; intros w; [reflexivity|].
  rewrite repeat_call_S, ModifyRequest_run, IH. reflexivity.
Qed.

(** Through non-nil pointers the calls are the hooks on the objects of the
    world. *)
Lemma ModifyRequest_call_ptr (pm pq : pointer) (w : World) :
  ModifyRequest_call pm ptr pq w = ModifyRequest w.
Proof. reflexivity. Qed.

Lemma ModifyResponse_call_ptr (pc : pointer) (w : World) :
  ModifyResponse_call ptr pc ptr w = ModifyResponse w.
Proof. reflexivity. Qed.

(** [ModifyResponse] through any pointers, path by path: a nil [res]
    panics at once, a nil receiver after the old body was closed. *)
Lemma ModifyResponse_call_run (pm pc pr : pointer) (w : World) :
  ModifyResponse_call pm pc pr w =
  match pr, pm with
  | nil_ptr, _ => (Panics "invalid memory address or nil pointer dereference", w)
  | ptr, ptr => ModifyResponse w
  | ptr, nil_ptr =>
      match http.Response.Body (res w) with
      | None => (Panics "invalid memory address or nil pointer dereference", w)
      | Some l =>
          match store w !! l with
          | None => (Panics "invalid memory address or nil pointer dereference", w)
          | Some rc => (Panics "invalid memory address or nil pointer dereference",
                        set_store (<[l := Close rc]> (store w)) w)
          end
      end
  end.
Proof.
  destruct pr; [reflexivity|]. destruct pm; [|reflexivity].
  destruct w as [m c rq [h b n r] st].
  unfold ModifyResponse_call, deref. unfold_hooks. proj.
  destruct b as [l|]; [|reflexivity]. proj.
  destruct (st !! l) as [rc|]; reflexivity.
Qed.

(** C3, as the code has it: neither hook ever returns an error, and each
    returns nil exactly when what it dereferences is not nil.
    [ModifyRequest] returns nil if and only if its context pointer is not
    nil, whatever the receiver and the request pointer, and panics on a
    nil context; [ModifyResponse] returns nil if and only if its receiver
    and its response pointer are not nil, the body slot of the response
    holds a stream object and its header map is not nil, and panics with a
    nil dereference on a nil receiver or a nil response. *)
Theorem hooks_return_nil (w : World) :
  (forall pm pc pq,
      fst (ModifyRequest_call pm pc pq w) = Returns None <-> pc = ptr) /\
  (forall pm pq,
      ModifyRequest_call pm nil_ptr pq w
      = (Panics "invalid memory address or nil pointer dereference", w)) /\
  (forall pm pc pr,
      fst (ModifyResponse_call pm pc pr w) = Returns None <->
      pm = ptr /\ pr = ptr /\
      exists l rc h,
        http.Response.Body (res w) = Some l /\ store w !! l = Some rc /\
        http.Response.Header (res w) = Some h) /\
  (forall pm pc pr,
      pm = nil_ptr \/ pr = nil_ptr ->
      fst (ModifyResponse_call pm pc pr w)
      = Panics "invalid memory address or nil pointer dereference") /\
  (forall pm pc pq e, fst (ModifyRequest_call pm pc pq w) = Returns e -> e = None) /\
  (forall pm pc pr e, fst (ModifyResponse_call pm pc pr w) = Returns e -> e = None).
Proof.
  assert (Hret : forall pm pc pr e,
             fst (ModifyResponse_call pm pc pr w) = Returns e ->
             e = None /\ pm = ptr /\ pr = ptr /\
             exists l rc h,
               http.Response.Body (res w) = Some l /\ store w !! l = Some rc /\
               http.Response.Header (res w) = Some h).
  { intros pm pc pr e H. rewrite ModifyResponse_call_run in H.
    destruct pr; [discriminate H|]. destruct pm.
    - destruct (http.Response.Body (res w)) as [l|]; [|discriminate H].
      destruct (store w !! l); discriminate H.
    - destruct (ModifyResponse w) as [o w'] eqn:E. cbn [fst] in H. subst o.
      apply ModifyResponse_returns in E as (l & rc & h & Hb & Hl & Hh & He & _).
      split; [exact He|]. split; [reflexivity|]. split; [reflexivity|].
      exists l, rc, h. split; [exact Hb|]. split; [exact Hl|exact Hh]. }
  split; [|split; [|split; [|split; [|split]]]].
  - intros pm pc pq. destruct pc; [|split; reflexivity].
    split; [intros H; cbv in H; discriminate H | discriminate].
  - reflexivity.
  - intros pm pc pr. split.
    + intros H. apply Hret in H as (_ & H). exact H.
    + intros (-> & -> & l & rc & h & Hb & Hl & Hh).
      rewrite ModifyResponse_call_ptr, ModifyResponse_run, Hb, Hl, Hh. reflexivity.
  - intros pm pc pr H. rewrite ModifyResponse_call_run.
    destruct pr; [reflexivity|]. destruct pm; [|destruct H; discriminate].
    destruct (http.Response.Body (res w)) as [l|]; [|reflexivity].
    destruct (store w !! l); reflexivity.
  - intros pm pc pq e. destruct pc; [intros H; cbv in H; discriminate H|].
    intros H. cbv in H. congruence.
  - intros pm pc pr e H. apply Hret in H as (H & _). exact H.
Qed.

(** C10, as the code has it: on a response whose body slot holds a stream
    object and whose header map is not nil, [ModifyResponse] returns, the
    old stream object has had its [Close] called and the slot holds a new
    stream object, a reader at the start of the modifier's body; on a nil
    body slot the call panics at the close step, before any change; the
    close is the first step, done whatever follows: on a nil header map
    the old stream has been closed when the call panics. *)
Theorem ModifyResponse_closes_then_replaces (w : World) :
  (forall l rc h,
      http.Response.Body (res w) = Some l -> store w !! l = Some rc ->
      http.Response.Header (res w) = Some h ->
      exists w' l',
        ModifyResponse w = (Returns None, w') /\
        store w' !! l = Some (Close rc) /\
        l' <> l /\ http.Response.Body (res w') = Some l' /\
        store w' !! l' = Some (NopCloserReader (body (this w)) 0)) /\
  (http.Response.Body (res w) = None ->
      ModifyResponse w = (Panics "invalid memory address or nil pointer dereference", w)) /\
  (forall l rc,
      http.Response.Body (res w) = Some l -> store w !! l = Some rc ->
      http.Response.Header (res w) = None ->
      ModifyResponse w
      = (Panics "assignment to entry in nil map", set_store (<[l := Close rc]> (store w)) w)).
Proof.
  split; [|split].
  - intros l rc h Hb Hl Hh. rewrite ModifyResponse_run, Hb, Hl, Hh.
    eexists _, _. split; [reflexivity|]. unfold overridden. proj.
    assert (Hne : fresh (dom (<[l:=Close rc]> (store w))) <> l).
    { apply fresh_loc_new. rewrite lookup_insert_eq. eauto. }
    rewrite lookup_insert_ne by exact Hne. rewrite !lookup_insert_eq. auto.
  - intros Hb. rewrite ModifyResponse_run, Hb. reflexivity.
  - intros l rc Hb Hl Hh. rewrite ModifyResponse_run, Hb, Hl, Hh. reflexivity.
Qed.

End HookProperties.

(** ** The decoder *)

Section DecoderProperties.

Context {ModifierTypes : Type} (nilScope : ModifierTypes)
        (unmarshalScope : ModifierTypes -> json.value -> ModifierTypes * option error).
Context {Result : Type}
        (NewResult : Modifier -> ModifierTypes -> option Result * option error).

Abbreviation modifierJSON := (@modifierJSON ModifierTypes).
Abbreviation zero_modifierJSON := (zero_modifierJSON nilScope).
Abbreviation object := (object unmarshalScope).
Abbreviation Unmarshal := (Unmarshal unmarshalScope).
Abbreviation modifierFromJSON := (modifierFromJSON nilScope unmarshalScope NewResult).
Abbreviation mistyped := (mistyped unmarshalScope).
Abbreviation well_typed := (well_typed unmarshalScope).
Abbreviation shape_mismatch := (shape_mismatch unmarshalScope).

Lemma saveError_Some (e : error) (e' : option error) : saveError (Some e) e' = Some e.
Proof. reflexivity. Qed.

Lemma object_step (kv : string * json.value) ms msg saved :
  exists msg' e', object (kv :: ms) msg saved = object ms msg' (saveError saved e') /\
    (well_typed kv -> e' = None) /\
    (mistyped kv -> is_Some e') /\
    (~ selects fContentType kv -> ContentType msg' = ContentType msg).
Proof.
  destruct kv as [key v]. unfold well_typed, mistyped, selects. cbn [object fst snd].
  destruct (find_field key) as [[| |]|].
  - destruct v; cbn [store_string]; eexists _, _; (split; [reflexivity|]);
      repeat split; try tauto; try congruence; eauto.
  - destruct v; cbn [store_string]; eexists _, _; (split; [reflexivity|]);
      repeat split; try tauto; try congruence; eauto.
  - destruct (unmarshalScope (Scope msg) v) as [sc e] eqn:E.
    eexists _, _. split; [reflexivity|].
    repeat split; try reflexivity.
    + intros H. specialize (H (Scope msg)). rewrite E in H. exact H.
    + intros H. specialize (H (Scope msg)). rewrite E in H. exact H.
  - exists msg, None. split; [destruct saved; reflexivity|]. repeat split; tauto.
Qed.

(** The first error saved is the one returned. *)
Lemma object_saved ms : forall msg e, snd (object ms msg (Some e)) = Some e.
Proof.
  induction ms as [|kv ms IH]; intros msg e; [reflexivity|].
  destruct (object_step kv ms msg (Some e)) as (msg' & e' & -> & _). apply IH.
Qed.

Lemma object_mistyped ms :
  Exists mistyped ms -> forall msg saved, is_Some (snd (object ms msg saved)).
Proof.
  induction 1 as [kv ms Hkv | kv ms _ IH]; intros msg saved;
    destruct (object_step kv ms msg saved) as (msg' & e' & -> & _ & Hm & _).
  - destruct saved as [e|]; cbn [saveError]; [rewrite object_saved; eauto|].
    destruct (Hm Hkv) as [e ->]. rewrite object_saved. eauto.
  - apply IH.
Qed.

Lemma object_well_typed ms :
  Forall well_typed ms -> forall msg, snd (object ms msg None) = None.
Proof.
  induction 1 as [|kv ms Hkv _ IH]; intros msg; [reflexivity|].
  destruct (object_step kv ms msg None) as (msg' & e' & -> & Hw & _).
  rewrite (Hw Hkv). apply IH.
Qed.

Lemma object_absent ms :
  Forall (fun kv => ~ selects fContentType kv) ms ->
  forall msg saved, ContentType (fst (object ms msg saved)) = ContentType msg.
Proof.
  induction 1 as [|kv ms Hkv _ IH]; intros msg saved; [reflexivity|].
  destruct (object_step kv ms msg saved) as (msg' & e' & -> & _ & _ & Ha).
  rewrite IH. exact (Ha Hkv).
Qed.

(** [modifierFromJSON], stage by stage. *)
Lemma modifierFromJSON_run (b : list byte) :
  modifierFromJSON b =
  match snd (Unmarshal b zero_modifierJSON) with
  | Some e => (None, Some e)
  | None =>
      let msg := fst (Unmarshal b zero_modifierJSON) in
      match base64.DecodeString (Body msg) with
      | (_, Some e) => (None, Some e)
      | (bs, None) => NewResult {| contentType := ContentType msg; body := bs |} (Scope msg)
      end
  end.
Proof.
  unfold modifierFromJSON. destruct (Unmarshal b zero_modifierJSON) as [msg [e|]]; [reflexivity|].
  cbn [fst snd]. destruct (base64.DecodeString (Body msg)) as [bs [e|]]; reflexivity.
Qed.

Lemma DecodeString_valid (s : string) :
  base64.valid_std s = true ->
  base64.DecodeString s = (base64.base64_decode s, None).
Proof. intros H. apply (decode_valid _ [] H). Qed.

Lemma DecodeString_invalid (s : string) :
  base64.valid_groups (base64.removeNewlines (list_byte_of_string s)) = false ->
  snd (base64.DecodeString s) = Some CorruptInputError.
Proof.
  intros H. destruct (snd (base64.DecodeString s)) as [e|] eqn:E.
  - apply decode_error_kind in E. congruence.
  - apply DecodeString_ok_iff in E. congruence.
Qed.

(** C4, as the code has it: when the [body] field of the configuration,
    with its CR and LF characters removed, is not valid text in the
    standard alphabet with padding, the decoder fails with the base64
    error and produces no result. *)
Theorem invalid_body_is_rejected (b : list byte) (msg : modifierJSON) :
  Unmarshal b zero_modifierJSON = (msg, None) ->
  base64.valid_groups (base64.removeNewlines (list_byte_of_string (Body msg))) = false ->
  modifierFromJSON b = (None, Some CorruptInputError).
Proof.
  intros Hu Hv. rewrite modifierFromJSON_run, Hu. cbn [fst snd].
  pose proof (DecodeString_invalid _ Hv) as He.
  destruct (base64.DecodeString (Body msg)) as [bs e]. cbn in He. rewrite He. reflexivity.
Qed.

(** C6, as the code has it: a serialized document that is not a JSON text,
    or whose value is neither an object nor [null], or one of whose
    members is mistyped, makes the decoder fail with the error of
    [json.Unmarshal] and produce no result; that error is a syntax or a
    type error whenever the errors of storing a scope are. *)
Theorem shape_mismatch_is_rejected (b : list byte) :
  shape_mismatch b ->
  exists e,
    snd (Unmarshal b zero_modifierJSON) = Some e /\
    modifierFromJSON b = (None, Some e) /\
    ((forall cur v e', snd (unmarshalScope cur v) = Some e' -> json_error e') -> json_error e).
Proof.
  unfold shape_mismatch. intros H.
  assert (Hj : forall ms msg saved e,
             (forall cur v e', snd (unmarshalScope cur v) = Some e' -> json_error e') ->
             (forall e0, saved = Some e0 -> json_error e0) ->
             snd (object ms msg saved) = Some e -> json_error e).
  { induction ms as [|[key v] ms IH]; intros msg saved e Hs Hsaved.
    - cbn. apply Hsaved.
    - cbn [object]. destruct (find_field key) as [[| |]|].
      + destruct (store_string (ContentType msg) v) as [s0 e0] eqn:E. apply IH; [exact Hs|].
        intros e1. destruct saved as [es|]; cbn [saveError]; [apply Hsaved|].
        intros ->. destruct v; cbn in E; inversion E; right; eauto.
      + destruct (store_string (Body msg) v) as [s0 e0] eqn:E. apply IH; [exact Hs|].
        intros e1. destruct saved as [es|]; cbn [saveError]; [apply Hsaved|].
        intros ->. destruct v; cbn in E; inversion E; right; eauto.
      + destruct (unmarshalScope (Scope msg) v) as [sc e0] eqn:E. apply IH; [exact Hs|].
        intros e1. destruct saved as [es|]; cbn [saveError]; [apply Hsaved|].
        intros ->. apply (Hs (Scope msg) v). rewrite E. reflexivity.
      + apply IH; assumption. }
  assert (He : exists e, snd (Unmarshal b zero_modifierJSON) = Some e /\
             ((forall cur v e', snd (unmarshalScope cur v) = Some e' -> json_error e') ->
              json_error e)).
  { unfold Unmarshal. destruct (json.parse b) as [v|].
    - destruct v; cbn [store_struct kind_name snd];
        try (eexists; split; [reflexivity | intros _; right; eauto]).
      + destruct H.
      + destruct (object_mistyped _ H zero_modifierJSON None) as [e He].
        exists e. split; [exact He|]. intros Hs. apply (Hj _ _ _ _ Hs) in He; [exact He|].
        discriminate.
    - exists SyntaxError. split; [reflexivity|]. intros _. left. reflexivity. }
  destruct He as (e & He & Hk). exists e. split; [exact He|]. split; [|exact Hk].
  rewrite modifierFromJSON_run, He. reflexivity.
Qed.

(** C7: a document that is a JSON object none of whose members selects
    [contentType], whose other members are well typed, whose [body] is
    accepted by the base64 decoder and whose modifier and scope are
    accepted by [parse.NewResult], decodes successfully, and the modifier
    handed over has the empty string as its content type. *)
Theorem absent_contentType_is_empty (b : list byte) (ms : list (string * json.value))
    (bs : list byte) (r : Result) :
  json.parse b = Some (json.JObject ms) ->
  Forall (fun kv => ~ selects fContentType kv) ms ->
  Forall well_typed ms ->
  let msg := fst (Unmarshal b zero_modifierJSON) in
  base64.DecodeString (Body msg) = (bs, None) ->
  NewResult {| contentType := EmptyString; body := bs |} (Scope msg) = (Some r, None) ->
  snd (Unmarshal b zero_modifierJSON) = None /\
  ContentType msg = EmptyString /\
  modifierFromJSON b = (Some r, None).
Proof.
  intros Hp Ha Hw msg Hd Hn.
  assert (Hs : snd (Unmarshal b zero_modifierJSON) = None).
  { unfold Unmarshal. rewrite Hp. apply object_well_typed, Hw. }
  assert (Hc : ContentType msg = EmptyString).
  { unfold msg, Unmarshal. rewrite Hp. cbn [store_struct]. rewrite object_absent by exact Ha.
    reflexivity. }
  split; [exact Hs|]. split; [exact Hc|].
  rewrite modifierFromJSON_run, Hs. cbv zeta. fold msg. rewrite Hd, Hc. exact Hn.
Qed.

Section Served.

Context {Request CtxRest ResRest : Type}.
Abbreviation World := (World Request CtxRest ResRest).

(** C1: when the [body] field of the configuration is valid standard
    base64, the decoder hands to [parse.NewResult] a modifier whose body
    is the base64 decoding of the field; after [ModifyResponse] of that
    modifier returns, the content length of the response is the length of
    the decoding and reading the body stream to its end gives exactly the
    decoded bytes; and [ModifyResponse] does return on a response whose
    body slot holds a stream object and whose header map is not nil. *)
Theorem valid_body_is_served (b : list byte) (msg : modifierJSON) :
  Unmarshal b zero_modifierJSON = (msg, None) ->
  base64.valid_std (Body msg) = true ->
  let decoded := base64.base64_decode (Body msg) in
  let m := {| contentType := ContentType msg; body := decoded |} in
  modifierFromJSON b = NewResult m (Scope msg) /\
  (forall (w w1 : World) e,
      this w = m -> ModifyResponse w = (Returns e, w1) ->
      http.Response.ContentLength (res w1) = Z.of_nat (length decoded) /\
      exists w2, ReadAll_Body w1 = (Returns (decoded, None), w2)) /\
  (forall (w : World) l rc h,
      this w = m -> http.Response.Body (res w) = Some l -> store w !! l = Some rc ->
      http.Response.Header (res w) = Some h ->
      exists w1, ModifyResponse w = (Returns None, w1)).
Proof.
  intros Hu Hv decoded m. split; [|split].
  - rewrite modifierFromJSON_run, Hu. cbn [fst snd].
    rewrite (DecodeString_valid _ Hv). reflexivity.
  - intros w w1 e Hm Hr.
    apply ModifyResponse_returns in Hr as (l & rc & h & _ & _ & _ & _ & ->).
    split.
    + unfold overridden. proj. rewrite Hm. reflexivity.
    + destruct (ReadAll_overridden w l rc h) as [w2 Hw2]. exists w2.
      rewrite Hw2, Hm. reflexivity.
  - intros w l rc h _ Hb Hl Hh. rewrite ModifyResponse_run, Hb, Hl, Hh. eauto.
Qed.

End Served.

End DecoderProperties.

(** * Sample runs *)

Example DecodeString_hello :
  base64.DecodeString "aGVsbG8=" = (list_byte_of_string "hello", None).
Proof. reflexivity. Qed.

Example DecodeString_source_comment :
  base64.DecodeString "c29tZSBkYXRhIHdpdGggACBhbmQg77u/"
  = (list_byte_of_string ("some data with " ++ String "000"%char " and "
                          ++ String "239"%char (String "187"%char (String "191"%char ""))),
     None).
Proof. reflexivity. Qed.

Example DecodeString_trailing_bits :
  base64.DecodeString "aGVsbG9=" = (list_byte_of_string "hello", None).
Proof. reflexivity. Qed.

Example DecodeString_no_padding :
  base64.DecodeString "aGVsbG8" = (list_byte_of_string "hel", Some CorruptInputError).
Proof. reflexivity. Qed.

Example DecodeString_garbage :
  base64.DecodeString "aGVsbA==x" = (list_byte_of_string "hell", Some CorruptInputError).
Proof. reflexivity. Qed.

Example EncodeToString_hello :
  base64.EncodeToString (list_byte_of_string "hello") = "aGVsbG8="%string.
Proof. reflexivity. Qed.

Example parse_hello_config :
  json.parse hello_config
  = Some (json.JObject [("scope"%string, json.JArray [json.JString "response"]);
                        ("contentType"%string, json.JString "text/plain");
                        ("body"%string, json.JString "aGVsbG8=")]).
Proof. vm_compute. reflexivity. Qed.

Example parse_escapes :
  json.parse (doc "['aA\n', -1.5e+3, true, null, {'k': []}]")
  = Some (json.JArray [json.JString ("aA" ++ String "010"%char "");
                       json.JNumber "-1.5e+3"; json.JBool true; json.JNull;
                       json.JObject [("k"%string, json.JArray [])]]).
Proof. vm_compute. reflexivity. Qed.

Example parse_rejects :
  map json.parse [doc ""; doc "{} x"; doc "[1,]"; doc "{'a':1,}"; doc "01"; doc "nul";
                  doc "{'a' 1}"; doc "'\x'"; doc "1."; doc "{'body'}"]
  = repeat None 10.
Proof. vm_compute. reflexivity. Qed.

Example find_field_names :
  map find_field ["contentType"; "CONTENTTYPE"; "Body"; "scope";
                  String "197"%char (String "191"%char "cope");
                  "content-type"; "type"]%string
  = [Some fContentType; Some fContentType; Some fBody; Some fScope; Some fScope; None; None].
Proof. vm_compute. reflexivity. Qed.

Example CanonicalMIMEHeaderKey_samples :
  map http.CanonicalMIMEHeaderKey ["content-type"; "Content-Encoding"; "x-FORWARDED-for"; "a b"]%string
  = ["Content-Type"; "Content-Encoding"; "X-Forwarded-For"; "a b"]%string.
Proof. vm_compute. reflexivity. Qed.

Example decoder_samples :
  map sample_decoder [hello_config; doc "null"; doc "[]"; doc "{'body': 5}"; doc "{'BODY': 'aGk='}";
                      doc "{'body': 'aGk=', 'body': null}"; doc "{'scope': 'response'}"; doc "{'body'}"]
  = [(Some (hello_modifier, Some ["response"%string]), None);
     (Some (mkModifier "" [], None), None);
     (None, Some (UnmarshalTypeError "array"));
     (None, Some (UnmarshalTypeError "number"));
     (Some (mkModifier "" (list_byte_of_string "hi"), None), None);
     (Some (mkModifier "" (list_byte_of_string "hi"), None), None);
     (None, Some (UnmarshalTypeError "string"));
     (None, Some SyntaxError)].
Proof. vm_compute. reflexivity. Qed.

(** The second end-to-end scenario: both hooks in sequence on one
    transaction. *)
Example both_hooks :
  let '(o, w) := (ModifyRequest ;; ModifyResponse ;; ReadAll_Body) gzip_world in
  o = Returns (list_byte_of_string "hello", None) /\
  martian.SkipRoundTrip (ctx w) = true /\
  http.Response.ContentLength (res w) = 5 /\
  header_lookup (res w) "Content-Type" = Some ["text/plain"%string] /\
  header_lookup (res w) "Content-Encoding" = None /\
  header_lookup (res w) "X-Served-By" = Some ["origin"%string] /\
  store w !! 1%positive = Some (Stream (list_byte_of_string "<html>") true).
Proof. vm_compute. repeat split; reflexivity. Qed.

(** * The properties on the sample transactions *)

Lemma valid_body_is_served_witness :
  sample_Unmarshal hello_config = (mkJSON "text/plain" "aGVsbG8=" (Some ["response"%string]), None) /\
  base64.valid_std "aGVsbG8=" = true /\
  sample_decoder hello_config = (Some (hello_modifier, Some ["response"%string]), None) /\
  http.Response.ContentLength (res (snd (ModifyResponse gzip_world))) = 5 /\
  exists w2, ReadAll_Body (snd (ModifyResponse gzip_world))
             = (Returns (list_byte_of_string "hello", None), w2).
Proof.
  assert (Hu : sample_Unmarshal hello_config
               = (mkJSON "text/plain" "aGVsbG8=" (Some ["response"%string]), None))
    by (vm_compute; reflexivity).
  assert (Hv : base64.valid_std "aGVsbG8=" = true) by reflexivity.
  destruct (valid_body_is_served parse.nilScope parse.unmarshalScope parse.NewResult
              (Request := unit) (CtxRest := unit) (ResRest := unit) _ _ Hu Hv)
    as (H1 & H2 & _).
  split; [exact Hu|]. split; [exact Hv|]. split; [exact H1|].
  apply (H2 gzip_world (snd (ModifyResponse gzip_world)) None);
    [reflexivity | vm_compute; reflexivity].
Defined.


Lemma ModifyResponse_frame_witness :
  header_lookup (res (snd (ModifyResponse gzip_world))) "X-Served-By"
  = Some ["origin"%string].
Proof.
  destruct (ModifyResponse_frame gzip_world) as (_ & _ & _ & _ & _ & Hk & _).
  rewrite Hk by discriminate. vm_compute. reflexivity.
Defined.

Lemma ModifyRequest_idempotent_witness :
  (1 <= 3)%nat /\
  repeat_call 3 ModifyRequest gzip_world
  = (Returns [None; None; None],
     mkWorld hello_modifier (martian.mkContext true tt) tt gzip_response (store gzip_world)).
Proof.
  assert (H : (1 <= 3)%nat) by lia.
  split; [exact H|]. exact (ModifyRequest_idempotent 3 gzip_world H).
Defined.

Lemma hooks_return_nil_witness :
  http.Response.Body (res gzip_world) = Some 1%positive /\
  store gzip_world !! 1%positive = Some (Stream (list_byte_of_string "<html>") false) /\
  is_Some (http.Response.Header (res gzip_world)) /\
  fst (ModifyRequest_call nil_ptr ptr nil_ptr gzip_world) = Returns None /\
  ModifyRequest_call ptr nil_ptr ptr gzip_world
  = (Panics "invalid memory address or nil pointer dereference", gzip_world) /\
  fst (ModifyResponse_call ptr nil_ptr ptr gzip_world) = Returns None /\
  fst (ModifyResponse_call ptr ptr ptr nil_body_world) <> Returns None /\
  fst (ModifyResponse_call ptr ptr ptr nil_header_world) <> Returns None /\
  fst (ModifyResponse_call nil_ptr ptr ptr gzip_world)
  = Panics "invalid memory address or nil pointer dereference".
Proof.
  destruct (hooks_return_nil gzip_world) as (H1 & H2 & H3 & H4 & _).
  destruct (hooks_return_nil nil_body_world) as (_ & _ & Hb & _).
  destruct (hooks_return_nil nil_header_world) as (_ & _ & Hh & _).
  split; [reflexivity|]. split; [vm_compute; reflexivity|]. split; [eexists; reflexivity|].
  split; [apply (H1 nil_ptr ptr nil_ptr); reflexivity|].
  split; [exact (H2 ptr ptr)|].
  split.
  { apply (H3 ptr nil_ptr ptr). split; [reflexivity|]. split; [reflexivity|].
    exists 1%positive, (Stream (list_byte_of_string "<html>") false),
      {[ "Content-Encoding"%string := ["gzip"%string];
         "Content-Type"%string := ["text/html"%string];
         "X-Served-By"%string := ["origin"%string] ]}.
    split; [reflexivity|]. split; [vm_compute; reflexivity | reflexivity]. }
  split.
  { intros H. apply (Hb ptr ptr ptr) in H as (_ & _ & l & rc & h & E & _). discriminate E. }
  split.
  { intros H. apply (Hh ptr ptr ptr) in H as (_ & _ & l & rc & h & _ & _ & E).
    discriminate E. }
  apply (H4 nil_ptr ptr ptr); left; reflexivity.
Defined.

(** On a nil body slot [ModifyResponse] does not return. *)
Lemma ModifyResponse_nil_body_panics :
  http.Response.Body (res nil_body_world) = None /\
  ModifyResponse nil_body_world
  = (Panics "invalid memory address or nil pointer dereference", nil_body_world) /\
  fst (ModifyResponse nil_body_world) <> Returns None.
Proof.
  split; [reflexivity|]. split; [vm_compute; reflexivity|].
  vm_compute. discriminate.
Qed.

Lemma ModifyResponse_closes_then_replaces_witness :
  exists w' l',
    ModifyResponse gzip_world = (Returns None, w') /\
    store w' !! 1%positive = Some (Stream (list_byte_of_string "<html>") true) /\
    l' <> 1%positive /\ http.Response.Body (res w') = Some l' /\
    store w' !! l' = Some (NopCloserReader (list_byte_of_string "hello") 0).
Proof.
  destruct (ModifyResponse_closes_then_replaces gzip_world) as (H1 & _).
  apply (H1 1%positive (Stream (list_byte_of_string "<html>") false)
            {[ "Content-Encoding"%string := ["gzip"%string];
               "Content-Type"%string := ["text/html"%string];
               "X-Served-By"%string := ["origin"%string] ]});
    [reflexivity | vm_compute; reflexivity | reflexivity].
Defined.

(** A body slot that is not nil is not enough: on a nil header map the
    old body is closed and the call panics at [Header.Set]. *)
Lemma ModifyResponse_nil_header_panics :
  http.Response.Body (res nil_header_world) = Some 1%positive /\
  store nil_header_world !! 1%positive = Some (Stream (list_byte_of_string "<html>") false) /\
  fst (ModifyResponse nil_header_world) = Panics "assignment to entry in nil map" /\
  store (snd (ModifyResponse nil_header_world)) !! 1%positive
  = Some (Stream (list_byte_of_string "<html>") true).
Proof. repeat split; vm_compute; reflexivity. Qed.

Lemma invalid_body_is_rejected_witness :
  sample_Unmarshal bad_body_config
  = (mkJSON "text/plain" "not base64!!" (Some ["response"%string]), None) /\
  base64.valid_groups (base64.removeNewlines (list_byte_of_string "not base64!!")) = false /\
  sample_decoder bad_body_config = (None, Some CorruptInputError).
Proof.
  assert (Hu : sample_Unmarshal bad_body_config
               = (mkJSON "text/plain" "not base64!!" (Some ["response"%string]), None))
    by (vm_compute; reflexivity).
  assert (Hv : base64.valid_groups
                 (base64.removeNewlines (list_byte_of_string "not base64!!")) = false)
    by reflexivity.
  split; [exact Hu|]. split; [exact Hv|].
  exact (invalid_body_is_rejected parse.nilScope parse.unmarshalScope parse.NewResult _ _ Hu Hv).
Defined.

(** A body with a line feed in it is not text in the standard alphabet,
    and the decoder accepts it: whatever [parse.NewResult] is, it is
    handed the modifier whose body is [hello]. *)
Lemma newline_body_is_accepted :
  base64.valid_std newline_body = false /\
  sample_Unmarshal newline_config
  = (mkJSON "text/plain" newline_body (Some ["response"%string]), None) /\
  sample_decoder newline_config = (Some (hello_modifier, Some ["response"%string]), None) /\
  (forall (Result : Type)
          (NewResult : Modifier -> parse.ModifierTypes -> option Result * option error),
      modifierFromJSON parse.nilScope parse.unmarshalScope NewResult newline_config
      = NewResult hello_modifier (Some ["response"%string])).
Proof. repeat split; intros; vm_compute; reflexivity. Qed.

Lemma shape_mismatch_is_rejected_witness :
  shape_mismatch parse.unmarshalScope mistyped_config /\
  sample_decoder mistyped_config = (None, Some (UnmarshalTypeError "number")).
Proof.
  assert (Hp : json.parse mistyped_config
               = Some (json.JObject [("contentType"%string, json.JString "text/plain");
                                     ("body"%string, json.JNumber "5")]))
    by (vm_compute; reflexivity).
  assert (Hm : shape_mismatch parse.unmarshalScope mistyped_config).
  { unfold shape_mismatch. rewrite Hp. apply Exists_cons_tl, Exists_cons_hd. exact I. }
  split; [exact Hm|].
  destruct (shape_mismatch_is_rejected parse.nilScope parse.unmarshalScope parse.NewResult
              _ Hm) as (e & He & Hd & _).
  assert (He' : e = UnmarshalTypeError "number").
  { assert (Hc : snd (sample_Unmarshal mistyped_config) = Some (UnmarshalTypeError "number"))
      by (vm_compute; reflexivity).
    unfold sample_Unmarshal in Hc. congruence. }
  rewrite <- He'. exact Hd.
Defined.

(** A document with every field missing is decoded without error:
    whatever package [parse] is, [parse.NewResult] is handed the modifier
    with the empty content type and the empty body, and the zero scope. *)
Lemma empty_object_is_accepted :
  json.parse empty_config = Some (json.JObject []) /\
  sample_decoder empty_config
  = (Some ({| contentType := EmptyString; body := [] |}, None), None) /\
  (forall (ModifierTypes : Type) (nilScope : ModifierTypes)
          (unmarshalScope : ModifierTypes -> json.value -> ModifierTypes * option error)
          (Result : Type)
          (NewResult : Modifier -> ModifierTypes -> option Result * option error),
      Unmarshal unmarshalScope empty_config (zero_modifierJSON nilScope)
      = (zero_modifierJSON nilScope, None) /\
      modifierFromJSON nilScope unmarshalScope NewResult empty_config
      = NewResult {| contentType := EmptyString; body := [] |} nilScope).
Proof. repeat split; intros; vm_compute; reflexivity. Qed.

Lemma absent_contentType_is_empty_witness :
  json.parse no_contentType_config
  = Some (json.JObject [("scope"%string, json.JArray [json.JString "response"]);
                        ("body"%string, json.JString "aGVsbG8=")]) /\
  sample_decoder no_contentType_config
  = (Some ({| contentType := EmptyString; body := list_byte_of_string "hello" |},
           Some ["response"%string]), None).
Proof.
  assert (Hp : json.parse no_contentType_config
               = Some (json.JObject [("scope"%string, json.JArray [json.JString "response"]);
                                     ("body"%string, json.JString "aGVsbG8=")]))
    by (vm_compute; reflexivity).
  split; [exact Hp|].
  refine (proj2 (proj2 (absent_contentType_is_empty parse.nilScope parse.unmarshalScope
            parse.NewResult no_contentType_config _ (list_byte_of_string "hello")
            ({| contentType := EmptyString; body := list_byte_of_string "hello" |},
             Some ["response"%string]) Hp _ _ _ _))).
  - repeat constructor; unfold selects; vm_compute; discriminate.
  - repeat constructor; unfold well_typed; cbn; try exact I; try (intros cur; reflexivity).
  - vm_compute. reflexivity.
  - vm_compute. reflexivity.
Defined.

(** * Further properties *)

(** ** The hooks *)

Section MoreHookProperties.

Context {Request CtxRest ResRest : Type}.
Abbreviation World := (World Request CtxRest ResRest).

(** The header map a call of [ModifyResponse] leaves is a fixed point of
    the two header steps. *)
Lemma headers_settled (ct : string) (h : gmap string (list string)) :
  let h1 := http.Del "Content-Encoding" (http.Set_ "Content-Type" ct h) in
  http.Del "Content-Encoding" (http.Set_ "Content-Type" ct h1) = h1.
Proof.
  unfold http.Del, http.Set_.
  rewrite canonical_Content_Type, canonical_Content_Encoding. cbv zeta.
  apply map_eq. intros k.
  destruct (decide (k = "Content-Encoding"%string)) as [->|Hce].
  { rewrite !lookup_delete_eq. reflexivity. }
  rewrite !lookup_delete_ne by congruence.
  destruct (decide (k = "Content-Type"%string)) as [->|Hct].
  { rewrite !lookup_insert_eq. reflexivity. }
  rewrite !lookup_insert_ne by congruence.
  rewrite lookup_delete_ne by congruence. rewrite lookup_insert_ne by congruence. reflexivity.
Qed.

(** The world [ReadAll_Body] leaves after the body installed by
    [ModifyResponse] was read. *)
Lemma ReadAll_overridden_world (w : World) l rc h :
  ReadAll_Body (overridden w l rc h)
  = (Returns (body (this w), None),
     set_store (<[fresh (dom (<[l := Close rc]> (store w)))
                  := NopCloserReader (body (this w)) (Z.of_nat (length (body (this w))))]>
                (store (overridden w l rc h)))
               (overridden w l rc h)).
Proof.
  unfold overridden, ReadAll_Body. unfold_hooks. proj.
  rewrite lookup_insert_eq. cbn [ReadAll Z.to_nat skipn]. reflexivity.
Qed.

Lemma served_after (w w1 : World) (e : option error) :
  ModifyResponse w = (Returns e, w1) -> served (this w) w1.
Proof.
  intros H. apply ModifyResponse_returns in H as (l & rc & h & _ & _ & _ & _ & ->).
  unfold served, overridden. proj. repeat split; eauto.
  eexists. split; [reflexivity|]. apply lookup_insert_eq.
Qed.

Lemma served_again (m : Modifier) (w : World) :
  served m w ->
  exists w', ModifyResponse w = (Returns None, w') /\ served m w' /\
    http.Response.Header (res w') = http.Response.Header (res w) /\
    http.Response.rest (res w') = http.Response.rest (res w) /\
    ctx w' = ctx w /\ req w' = req w /\
    http.Response.Body (res w') <> http.Response.Body (res w).
Proof.
  intros (Hm & Hn & (h & Hh) & (l & Hb & Hl)).
  eexists. split; [rewrite ModifyResponse_run, Hb, Hl, Hh; reflexivity|].
  unfold served, overridden. proj. rewrite Hm, Hh, Hb.
  assert (Hs : http.Del "Content-Encoding" (http.Set_ "Content-Type" (contentType m)
                 (http.Del "Content-Encoding" (http.Set_ "Content-Type" (contentType m) h)))
               = http.Del "Content-Encoding" (http.Set_ "Content-Type" (contentType m) h))
    by apply headers_settled.
  rewrite Hs. repeat split; eauto.
  - eexists. split; [reflexivity|]. apply lookup_insert_eq.
  - intros [= Heq]. revert Heq. apply fresh_loc_new. rewrite lookup_insert_eq. eauto.
Qed.

Lemma served_read (m : Modifier) (w : World) :
  served m w -> fst (ReadAll_Body w) = Returns (body m, None).
Proof.
  intros (_ & _ & _ & (l & Hb & Hl)). unfold ReadAll_Body. unfold_hooks.
  rewrite Hb. rewrite Hl. cbn [ReadAll Z.to_nat skipn fst]. reflexivity.
Qed.

(** X13: once [ModifyResponse] has returned on a response, any number of
    further calls return nil too and leave the headers, the content length,
    the other fields, the context and the request as the first call left
    them; the body read afterwards is the modifier's body. *)
Theorem ModifyResponse_repeated (n : nat) (w w1 : World) (e : option error) :
  ModifyResponse w = (Returns e, w1) ->
  exists wn,
    repeat_call n ModifyResponse w1 = (Returns (repeat None n), wn) /\
    http.Response.Header (res wn) = http.Response.Header (res w1) /\
    http.Response.ContentLength (res wn) = http.Response.ContentLength (res w1) /\
    http.Response.rest (res wn) = http.Response.rest (res w1) /\
    this wn = this w1 /\ ctx wn = ctx w1 /\ req wn = req w1 /\
    fst (ReadAll_Body wn) = Returns (body (this w), None).
Proof.
  intros H. apply served_after in H. revert H. generalize (this w). intros m. revert w1.
  induction n as [|n IH]; intros w1 Hs.
  - exists w1. pose proof (served_read m w1 Hs). repeat split; assumption.
  - destruct (served_again m w1 Hs) as (w' & Hr & Hs' & Hh & Hrest & Hc & Hq & _).
    destruct (IH w' Hs') as (wn & Hn & Hh' & Hl' & Hrest' & Ht' & Hc' & Hq' & Hread).
    exists wn. rewrite repeat_call_S, Hr, Hn.
    destruct Hs as (Hm & Hlen & _). destruct Hs' as (Hm' & Hlen' & _).
    repeat split; try congruence. 
Qed.

(** X14: reading the served body to its end and serving again: the new body
    starts at its first byte, while the drained one stays drained. *)
Theorem served_body_is_rereadable (w w1 : World) (e : option error) :
  ModifyResponse w = (Returns e, w1) ->
  exists w1' w2,
    ReadAll_Body w1 = (Returns (body (this w), None), w1') /\
    fst (ReadAll_Body w1') = Returns ([], None) /\
    ModifyResponse w1' = (Returns None, w2) /\
    fst (ReadAll_Body w2) = Returns (body (this w), None).
Proof.
  intros H. apply ModifyResponse_returns in H as (l & rc & h & _ & _ & _ & _ & ->).
  set (w1 := overridden w l rc h).
  set (l1 := fresh (dom (<[l := Close rc]> (store w)))).
  set (n := Z.of_nat (length (body (this w)))).
  set (w1' := set_store (<[l1 := NopCloserReader (body (this w)) n]> (store w1)) w1).
  assert (Hb : http.Response.Body (res w1') = Some l1) by reflexivity.
  assert (Hl : store w1' !! l1 = Some (NopCloserReader (body (this w)) n)).
  { unfold w1'. proj. apply lookup_insert_eq. }
  assert (Hh : http.Response.Header (res w1')
               = Some (http.Del "Content-Encoding"
                         (http.Set_ "Content-Type" (contentType (this w)) h))) by reflexivity.
  assert (Hr : ModifyResponse w1' = (Returns None, snd (ModifyResponse w1'))).
  { rewrite ModifyResponse_run, Hb, Hl, Hh. reflexivity. }
  exists w1', (snd (ModifyResponse w1')).
  split; [apply ReadAll_overridden_world|]. split; [|split; [exact Hr|]].
  - unfold ReadAll_Body. unfold_hooks. rewrite Hb, Hl. cbn [ReadAll fst].
    unfold n. rewrite Nat2Z.id, skipn_all. reflexivity.
  - apply served_after in Hr. apply served_read in Hr. exact Hr.
Qed.

(** X15: the two hooks act on different parts of the transaction: when
    [ModifyResponse] returns, the order of the two calls does not matter. *)
Theorem hooks_commute (w w1 : World) (e : option error) :
  ModifyResponse w = (Returns e, w1) ->
  (ModifyRequest ;; ModifyResponse) w = (ModifyResponse ;; ModifyRequest) w /\
  fst ((ModifyRequest ;; ModifyResponse) w) = Returns None /\
  martian.SkipRoundTrip (ctx (snd ((ModifyRequest ;; ModifyResponse) w))) = true /\
  res (snd ((ModifyRequest ;; ModifyResponse) w)) = res w1 /\
  store (snd ((ModifyRequest ;; ModifyResponse) w)) = store w1.
Proof.
  intros H. apply ModifyResponse_returns in H as (l & rc & h & Hb & Hl & Hh & _ & ->).
  unfold mbind, M_bind. rewrite ModifyRequest_run, !ModifyResponse_run. proj.
  rewrite Hb, Hl, Hh. rewrite ModifyRequest_run. repeat split.
Qed.

(** X1: [NewModifier] never fails, and the modifier it returns serves
    exactly the bytes and the content type it was given. *)
Theorem NewModifier_is_served (b : list byte) (ct : string) :
  snd (NewModifier b ct) = None /\
  forall (w w1 : World) e,
    this w = fst (NewModifier b ct) -> ModifyResponse w = (Returns e, w1) ->
    header_lookup (res w1) "Content-Type" = Some [ct] /\
    http.Response.ContentLength (res w1) = Z.of_nat (length b) /\
    fst (ReadAll_Body w1) = Returns (b, None).
Proof.
  split; [reflexivity|]. intros w w1 e Hm H.
  apply served_after in H. rewrite Hm in H. cbn [NewModifier fst] in H.
  pose proof (served_read _ _ H) as Hr.
  destruct H as (_ & Hn & (h & Hh) & _). unfold header_lookup. rewrite Hh.
  unfold http.Del, http.Set_. rewrite canonical_Content_Type, canonical_Content_Encoding.
  rewrite lookup_delete_ne by discriminate. rewrite lookup_insert_eq. auto.
Qed.

End MoreHookProperties.

(** ** The base64 stage *)

Lemma quantum_bytes_length (dbuf : list Z) :
  length (base64.quantum_bytes dbuf) = Nat.min (length dbuf - 1) 3.
Proof. unfold base64.quantum_bytes. rewrite length_firstn. reflexivity. Qed.

Lemma skipNewlines_length (s : list byte) : (length (base64.skipNewlines s) <= length s)%nat.
Proof.
  induction s as [|c s IH]; cbn [base64.skipNewlines]; [lia|].
  destruct (base64.isNewline c); cbn [length] in *; lia.
Qed.

Lemma padding_end_length rest dbuf dst :
  length (fst (base64.padding_end rest dbuf dst))
  = (length dst + Nat.min (length dbuf - 1) 3)%nat.
Proof.
  unfold base64.padding_end.
  destruct (base64.skipNewlines rest); cbn [fst]; rewrite length_app, quantum_bytes_length;
    reflexivity.
Qed.

(** The bytes [decode] has written: three at most for every four
    characters read. *)
Lemma decode_length (src : list byte) :
  forall dbuf dst, (length dbuf < 4)%nat ->
  (length (fst (base64.decode src dbuf dst))
   <= length dst + 3 * ((length dbuf + length src) / 4))%nat.
Proof.
  induction src as [|c s IH]; intros dbuf dst Hj.
  - destruct dbuf; cbn; lia.
  - destruct (base64.isNewline c) eqn:En.
    { rewrite decode_newline by assumption. specialize (IH dbuf dst Hj).
      cbn [length]. 
      assert ((length dbuf + length s) / 4 <= (length dbuf + S (length s)) / 4)%nat
        by (apply Nat.Div0.div_le_mono; lia).
      lia. }
    destruct (base64.in_alphabet c) eqn:Ea.
    { rewrite decode_alpha by assumption. rewrite length_app. cbn [length].
      destruct (Nat.eqb_spec (length dbuf + 1) 4) as [E|E].
      - specialize (IH [] (dst ++ base64.quantum_bytes (dbuf ++ [base64.decodeMap c]))).
        rewrite length_app, quantum_bytes_length, length_app in IH. cbn [length] in IH.
        specialize (IH ltac:(lia)).
        replace (length dbuf + S (length s))%nat with (length s + 1 * 4)%nat by lia.
        rewrite Nat.div_add by lia.
        replace (length dbuf + 1 - 1)%nat with 3%nat in IH by lia. cbn [Nat.min] in IH.
        cbn [Nat.add] in IH. lia.
      - specialize (IH (dbuf ++ [base64.decodeMap c]) dst).
        rewrite length_app in IH. cbn [length] in IH. specialize (IH ltac:(lia)).
        replace (length dbuf + 1 + length s)%nat with (length dbuf + S (length s))%nat in IH by lia.
        exact IH. }
    destruct (base64.is_pad c) eqn:Ep.
    + rewrite decode_pad by assumption. cbn [length].
      destruct dbuf as [|d0 [|d1 [|d2 [|d3 dbuf]]]]; cbn [length fst] in *; try lia.
      * destruct (base64.skipNewlines s) as [|c2 r] eqn:Es; cbn [fst]; [lia|].
        pose proof (skipNewlines_length s) as Hl. rewrite Es in Hl. cbn [length] in Hl.
        destruct (base64.is_pad c2); cbn [fst]; [|lia].
        rewrite padding_end_length. cbn [length Nat.sub Nat.min].
        assert (1 <= (2 + S (length s)) / 4)%nat
          by (apply Nat.div_le_lower_bound; lia).
        lia.
      * rewrite padding_end_length. cbn [length Nat.sub Nat.min].
        assert (1 <= (3 + S (length s)) / 4)%nat
          by (apply Nat.div_le_lower_bound; lia).
        lia.
    + rewrite decode_bad by assumption. cbn [fst]. lia.
Qed.

(** ** JSON documents written out *)

Lemma plain_char_facts (c : byte) :
  plain_char c = true ->
  Byte.eqb c "034"%byte = false /\ Byte.eqb c "\"%byte = false /\
  (utf8.b2z c <? 32) = false /\ (utf8.b2z c <? 128) = true.
Proof. destruct c; vm_compute; intros H; first [discriminate H | auto]. Qed.

Lemma string_body_plain (s : list byte) :
  forall rest acc, forallb plain_char s = true ->
  json.string_body (s ++ "034"%byte :: rest) 0 0 acc = Some (acc ++ s, rest).
Proof.
  induction s as [|c s IH]; intros rest acc H.
  - cbn. rewrite app_nil_r. reflexivity.
  - cbn [forallb] in H. apply andb_prop in H as [Hc Hs].
    destruct (plain_char_facts c Hc) as (H1 & H2 & H3 & H4).
    cbn [app json.string_body]. rewrite H1, H2, H3, H4.
    rewrite IH by exact Hs. rewrite <- app_assoc. reflexivity.
Qed.

Lemma skip_ws_head (c : byte) (r : list byte) :
  json.isSpace c = false -> json.skip_ws (c :: r) = c :: r.
Proof. intros H. cbn [json.skip_ws]. rewrite H. reflexivity. Qed.

Lemma parse_string_value (fuel depth : nat) (s rest : list byte) :
  forallb plain_char s = true ->
  json.parse_at (S fuel) json.mValue depth [] [] (json_string s ++ rest)
  = Some (json.JString (string_of_list_byte s), rest).
Proof.
  intros H. unfold json_string. cbn [app json.parse_at].
  rewrite skip_ws_head by reflexivity.
  change (Byte.eqb "034" "{") with false. change (Byte.eqb "034" "[") with false.
  change (Byte.eqb "034" "034") with true. cbv iota.
  rewrite <- app_assoc. cbn [app]. rewrite string_body_plain by exact H. reflexivity.
Qed.

(** One member whose key and value are plain strings, followed by [c]. *)
Lemma parse_member (fuel depth : nat) ms (k v : list byte) (c : byte) (rest : list byte) :
  forallb plain_char k = true -> forallb plain_char v = true -> json.isSpace c = false ->
  json.parse_at (S (S fuel)) json.mMembers depth [] ms
    (json_string k ++ ":"%byte :: json_string v ++ c :: rest)
  = let ms' := ms ++ [(string_of_list_byte k, json.JString (string_of_list_byte v))] in
    if Byte.eqb c ","%byte then json.parse_at (S fuel) json.mMembers depth [] ms' rest
    else if Byte.eqb c "}"%byte then Some (json.JObject ms', rest)
    else None.
Proof.
  intros Hk Hv Hc.
  remember (S fuel) as f eqn:Ef.
  cbn [json.parse_at]. unfold json_string at 1. cbn [app].
  rewrite skip_ws_head by reflexivity.
  change (Byte.eqb "034" "034") with true. cbv iota.
  rewrite <- app_assoc. cbn [app]. rewrite string_body_plain by exact Hk. cbn [app].
  rewrite skip_ws_head by reflexivity.
  change (Byte.eqb ":" ":") with true. cbv iota.
  subst f. rewrite parse_string_value by exact Hv.
  rewrite skip_ws_head by exact Hc. reflexivity.
Qed.

Lemma alphabet_plain (c : byte) :
  base64.in_alphabet c || base64.is_pad c = true -> plain_char c = true.
Proof. destruct c; vm_compute; intros H; first [discriminate H | reflexivity]. Qed.

Lemma valid_groups_plain (l : list byte) :
  base64.valid_groups l = true -> forallb plain_char l = true.
Proof.
  induction l as [| a | a b | a b c | a b c d l IH] using list_ind4; intros H;
    try discriminate H; [reflexivity|].
  cbn [base64.valid_groups] in H. cbn [forallb].
  destruct l as [|e l].
  - apply andb_prop in H as [Hab Hcd]. apply andb_prop in Hab as [Ha Hb].
    rewrite (alphabet_plain a), (alphabet_plain b) by (rewrite ?Ha, ?Hb; reflexivity).
    apply orb_prop in Hcd as [Hcd|Hcd]; apply andb_prop in Hcd as [Hc Hd].
    + rewrite (alphabet_plain c) by (rewrite Hc; reflexivity).
      rewrite (alphabet_plain d) by exact Hd. reflexivity.
    + rewrite (alphabet_plain c), (alphabet_plain d) by (rewrite ?Hc, ?Hd; apply orb_true_r).
      reflexivity.
  - apply andb_prop in H as [H Hl]. apply andb_prop in H as [H Hd].
    apply andb_prop in H as [H Hc]. apply andb_prop in H as [Ha Hb].
    rewrite (alphabet_plain a), (alphabet_plain b), (alphabet_plain c), (alphabet_plain d)
      by (rewrite ?Ha, ?Hb, ?Hc, ?Hd; reflexivity).
    rewrite (IH Hl). reflexivity.
Qed.

Lemma parse_object2 (fuel : nat) (k1 v1 k2 v2 : list byte) :
  forallb plain_char k1 = true -> forallb plain_char v1 = true ->
  forallb plain_char k2 = true -> forallb plain_char v2 = true ->
  json.parse_at (S (S (S (S fuel)))) json.mValue 0 [] []
    ("{"%byte :: json_string k1 ++ ":"%byte :: json_string v1 ++
     ","%byte :: json_string k2 ++ ":"%byte :: json_string v2 ++ ["}"%byte])
  = Some (json.JObject [(string_of_list_byte k1, json.JString (string_of_list_byte v1));
                        (string_of_list_byte k2, json.JString (string_of_list_byte v2))], []).
Proof.
  intros Hk1 Hv1 Hk2 Hv2.
  remember (S (S (S fuel))) as f eqn:Ef.
  cbn [json.parse_at]. rewrite skip_ws_head by reflexivity.
  change (Byte.eqb "{" "{") with true. cbv iota.
  replace (json.maxNestingDepth <=? 0)%nat with false by (symmetry; vm_compute; reflexivity).
  unfold json_string at 1. cbn [app]. rewrite skip_ws_head by reflexivity.
  change (Byte.eqb "034" "}") with false. cbv iota.
  change ("034"%byte :: (k1 ++ ["034"%byte]) ++ ":"%byte :: json_string v1 ++
          ","%byte :: json_string k2 ++ ":"%byte :: json_string v2 ++ ["}"%byte])
    with (json_string k1 ++ ":"%byte :: json_string v1 ++
          ","%byte :: json_string k2 ++ ":"%byte :: json_string v2 ++ ["}"%byte]).
  subst f. rewrite parse_member by (assumption || reflexivity).
  change (Byte.eqb "," ",") with true. cbv iota zeta.
  rewrite parse_member by (assumption || reflexivity).
  reflexivity.
Qed.

Lemma parse_config_doc (ct : string) (payload : list byte) :
  forallb plain_char (list_byte_of_string ct) = true ->
  json.parse (config_doc ct payload)
  = Some (json.JObject [("contentType"%string, json.JString ct);
                        ("body"%string, json.JString (base64.EncodeToString payload))]).
Proof.
  intros Hct. unfold json.parse.
  assert (Hf : (json.need json.mValue (config_doc ct payload)
                <= 2 * length (config_doc ct payload) + 2)%nat) by (unfold json.need; lia).
  rewrite (parse_at_fuel _ (S (S (S (S (2 * length (config_doc ct payload)))))) _ _ _ _ _ Hf)
    by (unfold json.need; lia).
  unfold config_doc at 2.
  rewrite parse_object2; try assumption; try reflexivity.
  - rewrite !string_of_list_byte_of_string. reflexivity.
  - apply valid_groups_plain, encode_valid.
Qed.

(** ** The decoder *)

Section MoreDecoderProperties.

Context {ModifierTypes : Type} (nilScope : ModifierTypes)
        (unmarshalScope : ModifierTypes -> json.value -> ModifierTypes * option error).
Context {Result : Type}
        (NewResult : Modifier -> ModifierTypes -> option Result * option error).

Abbreviation modifierJSON := (@modifierJSON ModifierTypes).
Abbreviation zero_modifierJSON := (zero_modifierJSON nilScope).
Abbreviation object := (object unmarshalScope).
Abbreviation Unmarshal := (Unmarshal unmarshalScope).
Abbreviation modifierFromJSON := (modifierFromJSON nilScope unmarshalScope NewResult).
Abbreviation well_typed := (well_typed unmarshalScope).

Lemma modifierJSON_eta (msg : modifierJSON) :
  {| ContentType := ContentType msg; Body := Body msg; Scope := Scope msg |} = msg.
Proof. destruct msg. reflexivity. Qed.

Lemma saveError_None (saved : option error) : saveError saved None = saved.
Proof. destruct saved; reflexivity. Qed.

Lemma object_app ms1 : forall ms2 msg saved,
  object (ms1 ++ ms2) msg saved
  = object ms2 (fst (object ms1 msg saved)) (snd (object ms1 msg saved)).
Proof.
  induction ms1 as [|[key v] ms1 IH]; intros ms2 msg saved; [reflexivity|].
  cbn [app object].
  destruct (find_field key) as [[| |]|].
  - destruct (store_string (ContentType msg) v). apply IH.
  - destruct (store_string (Body msg) v). apply IH.
  - destruct (unmarshalScope (Scope msg) v). apply IH.
  - apply IH.
Qed.

Lemma object_inert kv ms msg saved :
  inert kv -> object (kv :: ms) msg saved = object ms msg saved.
Proof.
  destruct kv as [key v]. unfold inert. cbn [fst snd object].
  destruct (find_field key) as [[| |]|]; intros H.
  - subst v. cbn [store_string]. rewrite modifierJSON_eta, saveError_None. reflexivity.
  - subst v. cbn [store_string]. rewrite modifierJSON_eta, saveError_None. reflexivity.
  - destruct H.
  - reflexivity.
Qed.

Lemma Unmarshal_object b ms msg :
  json.parse b = Some (json.JObject ms) -> Unmarshal b msg = object ms msg None.
Proof. unfold Unmarshal. intros ->. reflexivity. Qed.

Lemma modifierFromJSON_same b b' :
  Unmarshal b zero_modifierJSON = Unmarshal b' zero_modifierJSON ->
  modifierFromJSON b = modifierFromJSON b'.
Proof.
  intros H. rewrite !(modifierFromJSON_run nilScope unmarshalScope NewResult), H. reflexivity.
Qed.

(** X5: a member whose key selects no field, or that gives [null] to
    [contentType] or [body], can be left out of the document. *)
Theorem inert_member_is_ignored (b b' : list byte) ms1 kv ms2 :
  json.parse b = Some (json.JObject (ms1 ++ kv :: ms2)) ->
  json.parse b' = Some (json.JObject (ms1 ++ ms2)) ->
  inert kv ->
  Unmarshal b zero_modifierJSON = Unmarshal b' zero_modifierJSON /\
  modifierFromJSON b = modifierFromJSON b'.
Proof.
  intros Hp Hp' Hi.
  assert (Hu : Unmarshal b zero_modifierJSON = Unmarshal b' zero_modifierJSON).
  { rewrite (Unmarshal_object _ _ _ Hp), (Unmarshal_object _ _ _ Hp').
    rewrite !object_app. rewrite object_inert by exact Hi. reflexivity. }
  split; [exact Hu | apply modifierFromJSON_same, Hu].
Qed.

Lemma object_keeps (f : field) ms :
  Forall (fun kv => find_field (fst kv) <> Some f) ms ->
  forall msg saved, string_field f (fst (object ms msg saved)) = string_field f msg.
Proof.
  induction 1 as [|[key v] ms Hkv _ IH]; intros msg saved; [reflexivity|].
  cbn [object]. cbn [fst] in Hkv.
  destruct (find_field key) as [[| |]|].
  - destruct (store_string (ContentType msg) v). rewrite IH.
    destruct f; try reflexivity. congruence.
  - destruct (store_string (Body msg) v). rewrite IH.
    destruct f; try reflexivity. congruence.
  - destruct (unmarshalScope (Scope msg) v). rewrite IH. destruct f; reflexivity.
  - apply IH.
Qed.

(** X6: of several members that select [contentType] or [body], the last one
    that is a string decides. *)
Theorem last_member_wins (b : list byte) ms1 k s ms2 (f : field) :
  json.parse b = Some (json.JObject (ms1 ++ (k, json.JString s) :: ms2)) ->
  find_field k = Some f -> f <> fScope ->
  Forall (fun kv => find_field (fst kv) <> Some f) ms2 ->
  string_field f (fst (Unmarshal b zero_modifierJSON)) = s.
Proof.
  intros Hp Hk Hf Hrest. rewrite (Unmarshal_object _ _ _ Hp), object_app.
  cbn [object]. rewrite Hk.
  destruct f; [| |congruence]; cbn [store_string]; rewrite object_keeps by exact Hrest;
    reflexivity.
Qed.


Lemma foldName_names_differ :
  foldName "contentType" <> foldName "body" /\ foldName "contentType" <> foldName "scope" /\
  foldName "body" <> foldName "scope".
Proof. repeat split; vm_compute; discriminate. Qed.

(** A key selects the field with the same folded name. *)
Lemma find_field_fold (k : string) (f : field) :
  find_field k = Some f <-> foldName k = foldName (field_name f).
Proof.
  destruct foldName_names_differ as (H1 & H2 & H3).
  unfold find_field, fields. cbn [find field_name].
  destruct (String.eqb_spec "contentType" k) as [<-|E1].
  { split; [intros [= <-]; reflexivity|]. destruct f; cbn [field_name]; congruence. }
  destruct (String.eqb_spec "body" k) as [<-|E2].
  { split; [intros [= <-]; reflexivity|]. destruct f; cbn [field_name]; congruence. }
  destruct (String.eqb_spec "scope" k) as [<-|E3].
  { split; [intros [= <-]; reflexivity|]. destruct f; cbn [field_name]; congruence. }
  destruct (String.eqb_spec (foldName "contentType") (foldName k)) as [F1|F1].
  { split; [intros [= <-]; symmetry; exact F1|]. destruct f; cbn [field_name]; congruence. }
  destruct (String.eqb_spec (foldName "body") (foldName k)) as [F2|F2].
  { split; [intros [= <-]; symmetry; exact F2|]. destruct f; cbn [field_name]; congruence. }
  destruct (String.eqb_spec (foldName "scope") (foldName k)) as [F3|F3].
  { split; [intros [= <-]; symmetry; exact F3|]. destruct f; cbn [field_name]; congruence. }
  split; [discriminate|]. destruct f; cbn [field_name]; congruence.
Qed.

Lemma find_field_same_fold (k k' : string) :
  foldName k = foldName k' -> find_field k = find_field k'.
Proof.
  intros H. destruct (find_field k) as [f|] eqn:E.
  - apply find_field_fold in E. symmetry. apply find_field_fold. congruence.
  - destruct (find_field k') as [f'|] eqn:E'; [|reflexivity].
    apply find_field_fold in E'. rewrite <- H in E'. apply find_field_fold in E'. congruence.
Qed.

Lemma object_same_members ms ms' :
  same_members ms ms' -> forall msg saved, object ms msg saved = object ms' msg saved.
Proof.
  induction 1 as [|[k v] [k' v'] ms ms' [Hk Hv] _ IH]; intros msg saved; [reflexivity|].
  cbn [fst snd] in Hk, Hv. subst v'. cbn [object].
  rewrite (find_field_same_fold _ _ Hk).
  destruct (find_field k') as [[| |]|].
  - destruct (store_string (ContentType msg) v). apply IH.
  - destruct (store_string (Body msg) v). apply IH.
  - destruct (unmarshalScope (Scope msg) v). apply IH.
  - apply IH.
Qed.

(** X7: keys are matched by folded name: spelling the keys of a document in
    another letter case does not change what it decodes to. *)
Theorem keys_are_case_insensitive (b b' : list byte) ms ms' :
  json.parse b = Some (json.JObject ms) ->
  json.parse b' = Some (json.JObject ms') ->
  same_members ms ms' ->
  Unmarshal b zero_modifierJSON = Unmarshal b' zero_modifierJSON /\
  modifierFromJSON b = modifierFromJSON b'.
Proof.
  intros Hp Hp' Hs.
  assert (Hu : Unmarshal b zero_modifierJSON = Unmarshal b' zero_modifierJSON).
  { rewrite (Unmarshal_object _ _ _ Hp), (Unmarshal_object _ _ _ Hp').
    apply object_same_members, Hs. }
  split; [exact Hu | apply modifierFromJSON_same, Hu].
Qed.

Lemma object_first kv ms msg :
  well_typed kv ->
  object (kv :: ms) msg None = object ms (fst (object [kv] msg None)) None.
Proof.
  intros Hw. change (kv :: ms) with ([kv] ++ ms). rewrite object_app.
  f_equal. apply (object_well_typed nilScope unmarshalScope). constructor; [exact Hw | constructor].
Qed.

Lemma object_one k v msg saved :
  fst (object [(k, v)] msg saved)
  = match find_field k with
    | Some fContentType =>
        {| ContentType := fst (store_string (ContentType msg) v);
           Body := Body msg; Scope := Scope msg |}
    | Some fBody =>
        {| ContentType := ContentType msg;
           Body := fst (store_string (Body msg) v); Scope := Scope msg |}
    | Some fScope =>
        {| ContentType := ContentType msg; Body := Body msg;
           Scope := fst (unmarshalScope (Scope msg) v) |}
    | None => msg
    end.
Proof.
  cbn [object]. destruct (find_field k) as [[| |]|]; try reflexivity.
  - destruct (store_string (ContentType msg) v); reflexivity.
  - destruct (store_string (Body msg) v); reflexivity.
  - destruct (unmarshalScope (Scope msg) v); reflexivity.
Qed.

(** Two well-typed members that select different fields can be swapped. *)
Lemma object_swap x y ms msg :
  well_typed x -> well_typed y ->
  (forall f, find_field (fst x) = Some f -> find_field (fst y) <> Some f) ->
  object (x :: y :: ms) msg None = object (y :: x :: ms) msg None.
Proof.
  intros Hx Hy Hd.
  rewrite (object_first x (y :: ms) msg Hx), (object_first y ms _ Hy).
  rewrite (object_first y (x :: ms) msg Hy), (object_first x ms _ Hx).
  f_equal. destruct x as [k v], y as [k' v']. cbn [fst] in Hd.
  rewrite !object_one.
  destruct (find_field k) as [[| |]|] eqn:Ek; destruct (find_field k') as [[| |]|] eqn:Ek';
    try (exfalso; eapply Hd; reflexivity); try reflexivity.
Qed.

Lemma selected_cons kv ms :
  selected (kv :: ms)
  = match find_field (fst kv) with Some f => f :: selected ms | None => selected ms end.
Proof. unfold selected. cbn [omap list_omap]. destruct (find_field (fst kv)); reflexivity. Qed.

Lemma selected_In kv ms f :
  In kv ms -> find_field (fst kv) = Some f -> In f (selected ms).
Proof.
  induction ms as [|x ms IH]; intros Hin Hf; [destruct Hin|].
  rewrite selected_cons. destruct Hin as [->|Hin].
  - rewrite Hf. left. reflexivity.
  - destruct (find_field (fst x)); [right|]; apply IH; assumption.
Qed.

Lemma object_permutation ms ms' :
  Permutation ms ms' ->
  Forall well_typed ms -> List.NoDup (selected ms) ->
  forall msg, object ms msg None = object ms' msg None.
Proof.
  induction 1 as [|x l l' Hp IH|x y l|l l' l'' Hp1 IH1 Hp2 IH2]; intros Hw Hn msg.
  - reflexivity.
  - inversion_clear Hw as [|? ? Hx Hl].
    rewrite (object_first x l msg Hx), (object_first x l' msg Hx). apply IH; [exact Hl|].
    rewrite selected_cons in Hn. destruct (find_field (fst x)); [|exact Hn].
    inversion Hn; assumption.
  - inversion_clear Hw as [|? ? Hy Hl]. inversion_clear Hl as [|? ? Hx Hl'].
    apply object_swap; [exact Hy | exact Hx |].
    intros f Hf Hf'. rewrite !selected_cons, Hf, Hf' in Hn.
    inversion_clear Hn as [|? ? Hnot _]. apply Hnot. left. reflexivity.
  - rewrite IH1 by assumption. apply IH2.
    + eapply Permutation_Forall; eassumption.
    + unfold selected in *. eapply Permutation_NoDup; [|exact Hn].
      apply omap_Permutation. exact Hp1.
Qed.

(** X8: the order of the members does not matter when they are well typed
    and no field is selected twice. *)
Theorem member_order_is_irrelevant (b b' : list byte) ms ms' :
  json.parse b = Some (json.JObject ms) ->
  json.parse b' = Some (json.JObject ms') ->
  Permutation ms ms' -> Forall well_typed ms -> List.NoDup (selected ms) ->
  Unmarshal b zero_modifierJSON = Unmarshal b' zero_modifierJSON /\
  modifierFromJSON b = modifierFromJSON b'.
Proof.
  intros Hp Hp' Hperm Hw Hn.
  assert (Hu : Unmarshal b zero_modifierJSON = Unmarshal b' zero_modifierJSON).
  { rewrite (Unmarshal_object _ _ _ Hp), (Unmarshal_object _ _ _ Hp').
    apply object_permutation; assumption. }
  split; [exact Hu | apply modifierFromJSON_same, Hu].
Qed.


(** X3: line breaks in the base64 text are skipped: a body that is valid
    once its CR and LF characters are removed decodes to the bytes of the
    text without them. *)
Theorem line_broken_body_is_decoded (b : list byte) (msg : modifierJSON) :
  Unmarshal b zero_modifierJSON = (msg, None) ->
  let text := base64.removeNewlines (list_byte_of_string (Body msg)) in
  base64.valid_groups text = true ->
  modifierFromJSON b
  = NewResult {| contentType := ContentType msg;
                 body := base64.base64_decode (string_of_list_byte text) |} (Scope msg).
Proof.
  intros Hu text Hv.
  rewrite (modifierFromJSON_run nilScope unmarshalScope NewResult), Hu. cbn [fst snd]. cbv zeta.
  unfold base64.DecodeString. rewrite decode_removeNewlines. fold text.
  rewrite (decode_valid text [] Hv). cbn [app].
  unfold base64.base64_decode. rewrite list_byte_of_string_of_list_byte. reflexivity.
Qed.


Lemma object_all_inert ms :
  Forall inert ms -> forall msg saved, object ms msg saved = (msg, saved).
Proof.
  induction 1 as [|kv ms Hkv _ IH]; intros msg saved; [reflexivity|].
  rewrite object_inert by exact Hkv. apply IH.
Qed.

(** X9: the document [null], and an object all of whose members are ignored,
    decode to the modifier with the empty content type and the empty body. *)
Theorem empty_configuration_is_accepted (b : list byte) :
  json.parse b = Some json.JNull \/
  (exists ms, json.parse b = Some (json.JObject ms) /\ Forall inert ms) ->
  Unmarshal b zero_modifierJSON = (zero_modifierJSON, None) /\
  modifierFromJSON b = NewResult {| contentType := EmptyString; body := [] |} nilScope.
Proof.
  intros H.
  assert (Hu : Unmarshal b zero_modifierJSON = (zero_modifierJSON, None)).
  { destruct H as [Hp | (ms & Hp & Hi)].
    - unfold Unmarshal. rewrite Hp. reflexivity.
    - rewrite (Unmarshal_object _ _ _ Hp). apply object_all_inert, Hi. }
  split; [exact Hu|].
  rewrite (modifierFromJSON_run nilScope unmarshalScope NewResult), Hu. reflexivity.
Qed.

Lemma skip_ws_blank (b : list byte) :
  forallb json.isSpace b = true -> json.skip_ws b = [].
Proof.
  induction b as [|c b IH]; [reflexivity|]. cbn [forallb json.skip_ws].
  intros H. apply andb_prop in H as [Hc Hb]. rewrite Hc. apply IH, Hb.
Qed.

(** X10: a document that is empty or holds white space only is a syntax
    error. *)
Theorem blank_document_is_rejected (b : list byte) :
  forallb json.isSpace b = true ->
  modifierFromJSON b = (None, Some SyntaxError).
Proof.
  intros H.
  assert (Hp : json.parse b = None).
  { unfold json.parse. replace (2 * length b + 2)%nat with (S (2 * length b + 1)) by lia.
    cbn [json.parse_at]. rewrite (skip_ws_blank b H). reflexivity. }
  rewrite (modifierFromJSON_run nilScope unmarshalScope NewResult).
  unfold Unmarshal. rewrite Hp. reflexivity.
Qed.

(** X11: the type error reported is the one of the first offending value: of
    the document itself when it is neither an object nor [null], of the
    first member that gives [contentType] or [body] a value other than a
    string or [null] when the members before it are well typed. *)
Theorem first_type_error_is_reported (b : list byte) :
  (forall v, json.parse b = Some v ->
     match v with json.JObject _ | json.JNull => False | _ => True end ->
     modifierFromJSON b = (None, Some (UnmarshalTypeError (kind_name v)))) /\
  (forall ms1 k v ms2,
     json.parse b = Some (json.JObject (ms1 ++ (k, v) :: ms2)) ->
     Forall well_typed ms1 ->
     find_field k = Some fContentType \/ find_field k = Some fBody ->
     match v with json.JString _ | json.JNull => False | _ => True end ->
     modifierFromJSON b = (None, Some (UnmarshalTypeError (kind_name v)))).
Proof.
  split.
  - intros v Hp Hv. rewrite (modifierFromJSON_run nilScope unmarshalScope NewResult).
    unfold Unmarshal. rewrite Hp. destruct v; try destruct Hv; reflexivity.
  - intros ms1 k v ms2 Hp Hw Hk Hv.
    rewrite (modifierFromJSON_run nilScope unmarshalScope NewResult).
    rewrite (Unmarshal_object _ _ _ Hp), object_app.
    rewrite (object_well_typed nilScope unmarshalScope ms1 Hw).
    assert (He : snd (object ((k, v) :: ms2) (fst (object ms1 zero_modifierJSON None)) None)
                 = Some (UnmarshalTypeError (kind_name v))).
    { cbn [object].
      destruct Hk as [-> | ->]; destruct v; try destruct Hv; cbn [store_string saveError];
        apply (object_saved nilScope unmarshalScope). }
    rewrite He. reflexivity.
Qed.

Section ServedMore.

Context {Request CtxRest ResRest : Type}.
Abbreviation World := (World Request CtxRest ResRest).

(** X4: the body of the modifier has three bytes at most for every four
    characters of the base64 text, and so has the content length served. *)
Theorem served_length_is_bounded (b : list byte) (msg : modifierJSON) :
  Unmarshal b zero_modifierJSON = (msg, None) ->
  snd (base64.DecodeString (Body msg)) = None ->
  exists m,
    modifierFromJSON b = NewResult m (Scope msg) /\
    (length (body m) <= 3 * (length (list_byte_of_string (Body msg)) / 4))%nat /\
    forall (w w1 : World) e,
      this w = m -> ModifyResponse w = (Returns e, w1) ->
      0 <= http.Response.ContentLength (res w1)
        <= 3 * (Z.of_nat (length (list_byte_of_string (Body msg))) / 4).
Proof.
  intros Hu Hd.
  pose proof (decode_length (list_byte_of_string (Body msg)) [] []) as Hlen.
  cbn [length Nat.add] in Hlen. specialize (Hlen ltac:(lia)).
  fold (base64.DecodeString (Body msg)) in Hlen.
  destruct (base64.DecodeString (Body msg)) as [bs e0] eqn:E. cbn [fst snd] in *. subst e0.
  exists {| contentType := ContentType msg; body := bs |}. split; [|split].
  - rewrite (modifierFromJSON_run nilScope unmarshalScope NewResult), Hu. cbn [fst snd]. cbv zeta.
    rewrite E. reflexivity.
  - exact Hlen.
  - intros w w1 e Hm Hr.
    apply ModifyResponse_returns in Hr as (l & rc & h & _ & _ & _ & _ & ->).
    unfold overridden. cbn [res http.Response.ContentLength]. rewrite Hm. cbn [body].
    split; [lia|].
    rewrite <- (Nat2Z.inj_div _ 4). lia.
Qed.

(** X12: a configuration without a [contentType] member does not leave the
    Content-Type of the response alone: the header is set to the empty
    string, whatever it was. *)
Theorem absent_contentType_blanks_header (b : list byte) ms :
  json.parse b = Some (json.JObject ms) ->
  Forall (fun kv => ~ selects fContentType kv) ms ->
  snd (Unmarshal b zero_modifierJSON) = None ->
  snd (base64.DecodeString (Body (fst (Unmarshal b zero_modifierJSON)))) = None ->
  exists m,
    modifierFromJSON b = NewResult m (Scope (fst (Unmarshal b zero_modifierJSON))) /\
    forall (w w1 : World) e,
      this w = m -> ModifyResponse w = (Returns e, w1) ->
      header_lookup (res w1) "Content-Type" = Some [EmptyString] /\
      exists h1, http.Response.Header (res w1) = Some h1 /\
                 http.Get "Content-Type" h1 = EmptyString.
Proof.
  intros Hp Ha Hs Hd.
  assert (Hc : ContentType (fst (Unmarshal b zero_modifierJSON)) = EmptyString).
  { rewrite (Unmarshal_object _ _ _ Hp).
    rewrite (object_absent nilScope unmarshalScope) by exact Ha. reflexivity. }
  destruct (base64.DecodeString (Body (fst (Unmarshal b zero_modifierJSON)))) as [bs e0] eqn:E.
  cbn [snd] in Hd. subst e0.
  exists {| contentType := EmptyString; body := bs |}. split.
  - rewrite (modifierFromJSON_run nilScope unmarshalScope NewResult), Hs. cbv zeta.
    rewrite E, Hc. reflexivity.
  - intros w w1 e Hm Hr.
    apply ModifyResponse_returns in Hr as (l & rc & h & _ & _ & _ & _ & ->).
    unfold header_lookup, overridden. cbn [res http.Response.Header]. rewrite Hm.
    cbn [contentType]. unfold http.Get, http.Del, http.Set_.
    rewrite canonical_Content_Type, canonical_Content_Encoding.
    rewrite lookup_delete_ne by discriminate. rewrite lookup_insert_eq.
    split; [reflexivity|]. eexists. split; [reflexivity|].
    rewrite lookup_delete_ne by discriminate. rewrite lookup_insert_eq. reflexivity.
Qed.

End ServedMore.

End MoreDecoderProperties.

Section RoundTrip.

Context {ModifierTypes : Type} (nilScope : ModifierTypes)
        (unmarshalScope : ModifierTypes -> json.value -> ModifierTypes * option error).
Context {Result : Type}
        (NewResult : Modifier -> ModifierTypes -> option Result * option error).

Abbreviation zero_modifierJSON := (zero_modifierJSON nilScope).
Abbreviation Unmarshal := (Unmarshal unmarshalScope).
Abbreviation modifierFromJSON := (modifierFromJSON nilScope unmarshalScope NewResult).

Lemma Unmarshal_config_doc (ct : string) (payload : list byte) :
  forallb plain_char (list_byte_of_string ct) = true ->
  Unmarshal (config_doc ct payload) zero_modifierJSON
  = (mkJSON ct (base64.EncodeToString payload) nilScope, None).
Proof.
  intros Hct. unfold Unmarshal. rewrite (parse_config_doc ct payload Hct).
  cbn [store_struct object].
  change (find_field "contentType") with (Some fContentType).
  change (find_field "body") with (Some fBody).
  reflexivity.
Qed.

(** X2: a configuration written with the base64 encoding of any payload
    decodes to the modifier with that payload and that content type. *)
Theorem config_round_trip (ct : string) (payload : list byte) :
  forallb plain_char (list_byte_of_string ct) = true ->
  modifierFromJSON (config_doc ct payload)
  = NewResult {| contentType := ct; body := payload |} nilScope.
Proof.
  intros Hct.
  rewrite (modifierFromJSON_run nilScope unmarshalScope NewResult).
  rewrite (Unmarshal_config_doc ct payload Hct). cbn [fst snd]. cbv zeta. cbn [Body ContentType Scope].
  destruct (base64_roundtrip payload) as (_ & _ & ->). reflexivity.
Qed.

End RoundTrip.

(** * The further properties on the sample transactions *)

Lemma config_round_trip_witness :
  forallb plain_char (list_byte_of_string "image/png") = true /\
  sample_decoder (config_doc "image/png" (list_byte_of_string "hello"))
  = (Some ({| contentType := "image/png"; body := list_byte_of_string "hello" |}, None), None).
Proof.
  assert (H : forallb plain_char (list_byte_of_string "image/png") = true) by reflexivity.
  split; [exact H|].
  exact (config_round_trip parse.nilScope parse.unmarshalScope parse.NewResult
           "image/png" (list_byte_of_string "hello") H).
Defined.

Lemma NewModifier_is_served_witness :
  this gzip_world = fst (NewModifier (list_byte_of_string "hello") "text/plain") /\
  header_lookup (res (snd (ModifyResponse gzip_world))) "Content-Type"
  = Some ["text/plain"%string] /\
  http.Response.ContentLength (res (snd (ModifyResponse gzip_world))) = 5 /\
  fst (ReadAll_Body (snd (ModifyResponse gzip_world)))
  = Returns (list_byte_of_string "hello", None).
Proof.
  destruct (NewModifier_is_served (Request := unit) (CtxRest := unit) (ResRest := unit)
              (list_byte_of_string "hello") "text/plain") as [_ H].
  split; [reflexivity|].
  apply (H gzip_world (snd (ModifyResponse gzip_world)) None);
    [reflexivity | vm_compute; reflexivity].
Defined.

Lemma line_broken_body_is_decoded_witness :
  sample_Unmarshal newline_config
  = (mkJSON "text/plain" newline_body (Some ["response"%string]), None) /\
  base64.valid_groups (base64.removeNewlines (list_byte_of_string newline_body)) = true /\
  sample_decoder newline_config = (Some (hello_modifier, Some ["response"%string]), None).
Proof.
  assert (Hu : sample_Unmarshal newline_config
               = (mkJSON "text/plain" newline_body (Some ["response"%string]), None))
    by (vm_compute; reflexivity).
  assert (Hv : base64.valid_groups
                 (base64.removeNewlines (list_byte_of_string newline_body)) = true)
    by reflexivity.
  split; [exact Hu|]. split; [exact Hv|].
  exact (line_broken_body_is_decoded parse.nilScope parse.unmarshalScope parse.NewResult
           _ _ Hu Hv).
Defined.

Lemma served_length_is_bounded_witness :
  sample_Unmarshal hello_config
  = (mkJSON "text/plain" "aGVsbG8=" (Some ["response"%string]), None) /\
  snd (base64.DecodeString "aGVsbG8=") = None /\
  0 <= http.Response.ContentLength (res (snd (ModifyResponse gzip_world))) <= 6.
Proof.
  assert (Hu : sample_Unmarshal hello_config
               = (mkJSON "text/plain" "aGVsbG8=" (Some ["response"%string]), None))
    by (vm_compute; reflexivity).
  assert (Hd : snd (base64.DecodeString "aGVsbG8=") = None) by reflexivity.
  destruct (served_length_is_bounded parse.nilScope parse.unmarshalScope parse.NewResult
              (Request := unit) (CtxRest := unit) (ResRest := unit) _ _ Hu Hd)
    as (m & Hm & _ & H).
  split; [exact Hu|]. split; [exact Hd|].
  apply (H gzip_world (snd (ModifyResponse gzip_world)) None);
    [| vm_compute; reflexivity].
  assert (E : Some (hello_modifier, Some ["response"%string])
              = Some (m, Some ["response"%string])).
  { apply (f_equal fst) in Hm. exact Hm. }
  injection E as E. exact E.
Defined.

Lemma inert_member_is_ignored_witness :
  json.parse (doc "{'contentType':'text/plain','comment':'x','body':'aGVsbG8='}")
  = Some (json.JObject ([("contentType"%string, json.JString "text/plain")] ++
                        ("comment"%string, json.JString "x") ::
                        [("body"%string, json.JString "aGVsbG8=")])) /\
  inert ("comment"%string, json.JString "x") /\
  sample_decoder (doc "{'contentType':'text/plain','comment':'x','body':'aGVsbG8='}")
  = sample_decoder (doc "{'contentType':'text/plain','body':'aGVsbG8='}").
Proof.
  assert (H1 : json.parse (doc "{'contentType':'text/plain','comment':'x','body':'aGVsbG8='}")
               = Some (json.JObject ([("contentType"%string, json.JString "text/plain")] ++
                                     ("comment"%string, json.JString "x") ::
                                     [("body"%string, json.JString "aGVsbG8=")])))
    by (vm_compute; reflexivity).
  assert (H2 : json.parse (doc "{'contentType':'text/plain','body':'aGVsbG8='}")
               = Some (json.JObject ([("contentType"%string, json.JString "text/plain")] ++
                                     [("body"%string, json.JString "aGVsbG8=")])))
    by (vm_compute; reflexivity).
  assert (H3 : inert ("comment"%string, json.JString "x")) by exact I.
  split; [exact H1|]. split; [exact H3|].
  exact (proj2 (inert_member_is_ignored parse.nilScope parse.unmarshalScope parse.NewResult
                  _ _ _ _ _ H1 H2 H3)).
Defined.

Lemma last_member_wins_witness :
  json.parse (doc "{'body':'QQ==','Body':'aGVsbG8=','contentType':'a'}")
  = Some (json.JObject ([("body"%string, json.JString "QQ==")] ++
                        ("Body"%string, json.JString "aGVsbG8=") ::
                        [("contentType"%string, json.JString "a")])) /\
  find_field "Body" = Some fBody /\
  Body (fst (sample_Unmarshal (doc "{'body':'QQ==','Body':'aGVsbG8=','contentType':'a'}")))
  = "aGVsbG8="%string.
Proof.
  assert (H1 : json.parse (doc "{'body':'QQ==','Body':'aGVsbG8=','contentType':'a'}")
               = Some (json.JObject ([("body"%string, json.JString "QQ==")] ++
                                     ("Body"%string, json.JString "aGVsbG8=") ::
                                     [("contentType"%string, json.JString "a")])))
    by (vm_compute; reflexivity).
  assert (H2 : find_field "Body" = Some fBody) by reflexivity.
  assert (H3 : fBody <> fScope) by discriminate.
  assert (H4 : Forall (fun kv : string * json.value => find_field (fst kv) <> Some fBody)
                 [("contentType"%string, json.JString "a")]).
  { constructor; [discriminate | constructor]. }
  split; [exact H1|]. split; [exact H2|].
  exact (last_member_wins parse.nilScope parse.unmarshalScope _ _ _ _ _ fBody H1 H2 H3 H4).
Defined.

Lemma keys_are_case_insensitive_witness :
  same_members [("CONTENTTYPE"%string, json.JString "text/plain");
                ("Body"%string, json.JString "aGVsbG8=")]
               [("contentType"%string, json.JString "text/plain");
                ("body"%string, json.JString "aGVsbG8=")] /\
  sample_decoder (doc "{'CONTENTTYPE':'text/plain','Body':'aGVsbG8='}")
  = sample_decoder (doc "{'contentType':'text/plain','body':'aGVsbG8='}").
Proof.
  assert (H1 : json.parse (doc "{'CONTENTTYPE':'text/plain','Body':'aGVsbG8='}")
               = Some (json.JObject [("CONTENTTYPE"%string, json.JString "text/plain");
                                     ("Body"%string, json.JString "aGVsbG8=")]))
    by (vm_compute; reflexivity).
  assert (H2 : json.parse (doc "{'contentType':'text/plain','body':'aGVsbG8='}")
               = Some (json.JObject [("contentType"%string, json.JString "text/plain");
                                     ("body"%string, json.JString "aGVsbG8=")]))
    by (vm_compute; reflexivity).
  assert (H3 : same_members [("CONTENTTYPE"%string, json.JString "text/plain");
                             ("Body"%string, json.JString "aGVsbG8=")]
                            [("contentType"%string, json.JString "text/plain");
                             ("body"%string, json.JString "aGVsbG8=")]).
  { repeat constructor. }
  split; [exact H3|].
  exact (proj2 (keys_are_case_insensitive parse.nilScope parse.unmarshalScope parse.NewResult
                  _ _ _ _ H1 H2 H3)).
Defined.

Lemma member_order_is_irrelevant_witness :
  Permutation [("contentType"%string, json.JString "text/plain");
               ("body"%string, json.JString "aGVsbG8=")]
              [("body"%string, json.JString "aGVsbG8=");
               ("contentType"%string, json.JString "text/plain")] /\
  selected [("contentType"%string, json.JString "text/plain");
            ("body"%string, json.JString "aGVsbG8=")] = [fContentType; fBody] /\
  sample_decoder (doc "{'contentType':'text/plain','body':'aGVsbG8='}")
  = sample_decoder (doc "{'body':'aGVsbG8=','contentType':'text/plain'}").
Proof.
  assert (H1 : json.parse (doc "{'contentType':'text/plain','body':'aGVsbG8='}")
               = Some (json.JObject [("contentType"%string, json.JString "text/plain");
                                     ("body"%string, json.JString "aGVsbG8=")]))
    by (vm_compute; reflexivity).
  assert (H2 : json.parse (doc "{'body':'aGVsbG8=','contentType':'text/plain'}")
               = Some (json.JObject [("body"%string, json.JString "aGVsbG8=");
                                     ("contentType"%string, json.JString "text/plain")]))
    by (vm_compute; reflexivity).
  assert (H3 : Permutation [("contentType"%string, json.JString "text/plain");
                            ("body"%string, json.JString "aGVsbG8=")]
                           [("body"%string, json.JString "aGVsbG8=");
                            ("contentType"%string, json.JString "text/plain")])
    by apply perm_swap.
  assert (H4 : Forall (well_typed parse.unmarshalScope)
                 [("contentType"%string, json.JString "text/plain");
                  ("body"%string, json.JString "aGVsbG8=")]).
  { repeat constructor. }
  assert (H5 : List.NoDup (selected [("contentType"%string, json.JString "text/plain");
                                     ("body"%string, json.JString "aGVsbG8=")])).
  { change (List.NoDup [fContentType; fBody]).
    constructor; [intros [E|[]]; discriminate|].
    constructor; [intros []|constructor]. }
  split; [exact H3|]. split; [reflexivity|].
  exact (proj2 (member_order_is_irrelevant parse.nilScope parse.unmarshalScope parse.NewResult
                  _ _ _ _ H1 H2 H3 H4 H5)).
Defined.

Lemma empty_configuration_is_accepted_witness :
  json.parse (doc "{'comment':1,'body':null}")
  = Some (json.JObject [("comment"%string, json.JNumber "1");
                        ("body"%string, json.JNull)]) /\
  Forall inert [("comment"%string, json.JNumber "1"); ("body"%string, json.JNull)] /\
  sample_decoder (doc "{'comment':1,'body':null}")
  = (Some ({| contentType := EmptyString; body := [] |}, None), None) /\
  sample_decoder (doc "null")
  = (Some ({| contentType := EmptyString; body := [] |}, None), None).
Proof.
  assert (H1 : json.parse (doc "{'comment':1,'body':null}")
               = Some (json.JObject [("comment"%string, json.JNumber "1");
                                     ("body"%string, json.JNull)]))
    by (vm_compute; reflexivity).
  assert (H2 : Forall inert [("comment"%string, json.JNumber "1");
                             ("body"%string, json.JNull)]).
  { constructor; [exact I|]. constructor; [reflexivity | constructor]. }
  assert (H3 : json.parse (doc "null") = Some json.JNull) by (vm_compute; reflexivity).
  split; [exact H1|]. split; [exact H2|]. split.
  - exact (proj2 (empty_configuration_is_accepted parse.nilScope parse.unmarshalScope
                    parse.NewResult _ (or_intror (ex_intro _ _ (conj H1 H2))))).
  - exact (proj2 (empty_configuration_is_accepted parse.nilScope parse.unmarshalScope
                    parse.NewResult _ (or_introl H3))).
Defined.

Lemma blank_document_is_rejected_witness :
  forallb json.isSpace [" "%byte; "010"%byte; "009"%byte] = true /\
  sample_decoder [" "%byte; "010"%byte; "009"%byte] = (None, Some SyntaxError) /\
  sample_decoder [] = (None, Some SyntaxError).
Proof.
  assert (H1 : forallb json.isSpace [" "%byte; "010"%byte; "009"%byte] = true)
    by reflexivity.
  split; [exact H1|]. split.
  - exact (blank_document_is_rejected parse.nilScope parse.unmarshalScope parse.NewResult
             _ H1).
  - exact (blank_document_is_rejected parse.nilScope parse.unmarshalScope parse.NewResult
             [] eq_refl).
Defined.

Lemma first_type_error_is_reported_witness :
  sample_decoder mistyped_config = (None, Some (UnmarshalTypeError "number")) /\
  sample_decoder (doc "[1,2]") = (None, Some (UnmarshalTypeError "array")).
Proof.
  split.
  - destruct (first_type_error_is_reported parse.nilScope parse.unmarshalScope
                parse.NewResult mistyped_config) as [_ H].
    apply (H [("contentType"%string, json.JString "text/plain")] "body"%string
             (json.JNumber "5") []);
      [vm_compute; reflexivity | repeat constructor | right; reflexivity | exact I].
  - destruct (first_type_error_is_reported parse.nilScope parse.unmarshalScope
                parse.NewResult (doc "[1,2]")) as [H _].
    apply (H (json.JArray [json.JNumber "1"; json.JNumber "2"]));
      [vm_compute; reflexivity | exact I].
Defined.

Lemma absent_contentType_blanks_header_witness :
  json.parse no_contentType_config
  = Some (json.JObject [("scope"%string, json.JArray [json.JString "response"]);
                        ("body"%string, json.JString "aGVsbG8=")]) /\
  header_lookup (res gzip_world) "Content-Type" = Some ["text/html"%string] /\
  header_lookup
    (res (snd (ModifyResponse
                 (gzip_world_of {| contentType := EmptyString;
                                   body := list_byte_of_string "hello" |}))))
    "Content-Type"
  = Some [EmptyString].
Proof.
  assert (H1 : json.parse no_contentType_config
               = Some (json.JObject [("scope"%string, json.JArray [json.JString "response"]);
                                     ("body"%string, json.JString "aGVsbG8=")]))
    by (vm_compute; reflexivity).
  assert (H2 : Forall (fun kv : string * json.value => ~ selects fContentType kv)
                 [("scope"%string, json.JArray [json.JString "response"]);
                  ("body"%string, json.JString "aGVsbG8=")]).
  { repeat constructor; discriminate. }
  assert (H3 : snd (sample_Unmarshal no_contentType_config) = None)
    by (vm_compute; reflexivity).
  assert (H4 : snd (base64.DecodeString (Body (fst (sample_Unmarshal no_contentType_config))))
               = None)
    by (vm_compute; reflexivity).
  destruct (absent_contentType_blanks_header parse.nilScope parse.unmarshalScope
              parse.NewResult (Request := unit) (CtxRest := unit) (ResRest := unit)
              _ _ H1 H2 H3 H4) as (m & Hm & H).
  split; [exact H1|]. split; [vm_compute; reflexivity|].
  assert (Em : sample_decoder no_contentType_config
               = (Some ({| contentType := EmptyString;
                           body := list_byte_of_string "hello" |},
                        Some ["response"%string]), None))
    by (vm_compute; reflexivity).
  assert (E : m = {| contentType := EmptyString; body := list_byte_of_string "hello" |}).
  { unfold sample_decoder in Em. rewrite Em in Hm. apply (f_equal fst) in Hm.
    injection Hm as Hm. symmetry. exact Hm. }
  apply (H (gzip_world_of {| contentType := EmptyString;
                             body := list_byte_of_string "hello" |})
           (snd (ModifyResponse
                   (gzip_world_of {| contentType := EmptyString;
                                     body := list_byte_of_string "hello" |}))) None);
    [symmetry; exact E | vm_compute; reflexivity].
Defined.

Lemma ModifyResponse_repeated_witness :
  ModifyResponse gzip_world = (Returns None, snd (ModifyResponse gzip_world)) /\
  exists wn,
    repeat_call 2 ModifyResponse (snd (ModifyResponse gzip_world))
    = (Returns [None; None], wn) /\
    http.Response.ContentLength (res wn) = 5 /\
    fst (ReadAll_Body wn) = Returns (list_byte_of_string "hello", None).
Proof.
  assert (Hr : ModifyResponse gzip_world = (Returns None, snd (ModifyResponse gzip_world)))
    by (vm_compute; reflexivity).
  split; [exact Hr|].
  destruct (ModifyResponse_repeated 2 gzip_world _ None Hr)
    as (wn & H1 & _ & H3 & _ & _ & _ & _ & H8).
  exists wn. split; [exact H1|]. split; [|exact H8].
  rewrite H3. vm_compute. reflexivity.
Defined.

Lemma served_body_is_rereadable_witness :
  ModifyResponse gzip_world = (Returns None, snd (ModifyResponse gzip_world)) /\
  exists w1' w2,
    ReadAll_Body (snd (ModifyResponse gzip_world))
    = (Returns (list_byte_of_string "hello", None), w1') /\
    fst (ReadAll_Body w1') = Returns ([], None) /\
    ModifyResponse w1' = (Returns None, w2) /\
    fst (ReadAll_Body w2) = Returns (list_byte_of_string "hello", None).
Proof.
  assert (Hr : ModifyResponse gzip_world = (Returns None, snd (ModifyResponse gzip_world)))
    by (vm_compute; reflexivity).
  split; [exact Hr|].
  exact (served_body_is_rereadable gzip_world _ None Hr).
Defined.

Lemma hooks_commute_witness :
  ModifyResponse gzip_world = (Returns None, snd (ModifyResponse gzip_world)) /\
  (ModifyRequest ;; ModifyResponse) gzip_world = (ModifyResponse ;; ModifyRequest) gzip_world.
Proof.
  assert (Hr : ModifyResponse gzip_world = (Returns None, snd (ModifyResponse gzip_world)))
    by (vm_compute; reflexivity).
  split; [exact Hr|].
  exact (proj1 (hooks_commute gzip_world _ None Hr)).
Defined.
